(** * The inspector agent of [src/inspector_agent.cc]

    A shallow embedding of the bridge between a debugging front-end and
    the script engine: the protocol channel ([ChannelImpl]), the session
    client ([NodeInspectorClient]) with its nested pause loop, the agent
    facade ([Agent]) and the debugger-entry primitive
    ([CallAndPauseOnStart]).

    C++ object state is passed explicitly.  Calls that leave the file (the
    inspector engine, the transport, the scheduler, libuv, script
    functions) are answered by a [Host] and recorded in a trace of
    [Event]s, so that the order of the calls can be stated.  A failed
    [assert] and a dereference of a null [unique_ptr] end the run with a
    [Crash]. *)

From Stdlib Require Import ZArith List String Bool Lia.
Import ListNotations.
Local Open Scope Z_scope.
Local Open Scope list_scope.

(** ** Handles and values of the engine *)

Inductive Environment := env_handle (id : nat).
Inductive Platform := platform_handle (id : nat).
Inductive InspectorSessionDelegate := delegate_handle (id : nat).

(** [v8::Local<T>]: a handle that may be empty. *)
Definition Local (T : Type) : Type := option T.

Definition IsEmpty {T : Type} (h : Local T) : bool :=
  match h with Some _ => false | None => true end.

(** Script values, as far as this file looks at them.  A string is its
    sequence of UTF-16 code units. *)
Inductive Value :=
| VUndefined
| VNull
| VString (units : list Z)
| VFunction (id : nat)
| VOther (id : nat).

Definition IsFunction (v : Value) : bool :=
  match v with VFunction _ => true | _ => false end.

(** [v8_inspector::StringView]: 8-bit or 16-bit characters; the default
    constructed view is the empty 8-bit one. *)
Inductive StringView :=
| StringView8 (chars : list Z)
| StringView16 (chars : list Z).

Definition StringView_default : StringView := StringView8 [].

(** [ToProtocolString], lines 78-88. *)
Definition ToProtocolString (value : Local Value) : StringView :=
  match value with
  | None => StringView_default
  | Some VNull => StringView_default
  | Some VUndefined => StringView_default
  | Some (VString units) => StringView16 units
  | Some _ => StringView_default
  end.

Record StackFrame := { GetScriptId : Z }.

Record StackTrace := { frames : list StackFrame }.

Definition GetFrameCount (st : StackTrace) : Z := Z.of_nat (List.length (frames st)).

Definition GetFrame (st : StackTrace) (index : nat) : option StackFrame :=
  nth_error (frames st) index.

(** [int] is 32 bits wide; a wider integer stored in an [int] keeps its
    low 32 bits, read as a signed number. *)
Definition INT_MIN : Z := - 2 ^ 31.
Definition INT_MAX : Z := 2 ^ 31 - 1.

Definition to_int (value : Z) : Z := (value + 2 ^ 31) mod 2 ^ 32 - 2 ^ 31.

(** [v8::Message].  [ScriptID] is what
    [GetScriptOrigin().ScriptID()->Value()] returns, an [int64_t]; the
    two [Maybe<int>] positions are options. *)
Record Message := {
  ScriptID : Z;
  GetStackTrace : Local StackTrace;
  Get : Local Value;
  GetScriptResourceName : Local Value;
  GetLineNumber : option Z;
  GetStartColumn : option Z
}.

Definition FromMaybe (m : option Z) (default : Z) : Z :=
  match m with Some v => v | None => default end.

(** Lines 100-101. *)
Definition NANOS_PER_MSEC : Z := 1000000.
Definition CONTEXT_GROUP_ID : Z := 1.

(** [InspectorIo], as the agent constructs it (line 303). *)
Record InspectorIo := {
  io_env : option Environment;
  io_platform : option Platform;
  io_path : string;
  io_wait_for_connect : bool
}.

(** ** Outcomes, events and the monad of the embedding *)

Inductive fault :=
| AssertionFailed (condition : string)
| NullDereference (pointer : string).

Inductive outcome (A : Type) :=
| Ret (a : A)
| Crash (f : fault)
| OutOfFuel.

Arguments Ret {A} a.
Arguments Crash {A} f.
Arguments OutOfFuel {A}.

(** The calls this file makes to its collaborators.  [EvCheckTerminated]
    and [EvQuitMessageLoopOnPause] are marks for a read and a write of
    [terminated_]; they let a trace say when the flag was looked at. *)
Inductive Event :=
| EvInspectorCreate (env : Environment)
| EvInspectorRelease
| EvInspectorConnect (group : Z) (d : InspectorSessionDelegate) (state : StringView)
| EvSessionRelease (d : InspectorSessionDelegate)
| EvDispatchProtocolMessage (message : StringView)
| EvSchedulePauseOnNextStatement (reason details : StringView)
| EvSendMessageToFrontend (d : InspectorSessionDelegate) (message : StringView)
| EvCheckTerminated (terminated : bool)
| EvQuitMessageLoopOnPause
| EvWaitForFrontendMessage (d : InspectorSessionDelegate) (result : bool)
| EvPumpMessageLoop (p : Platform) (result : bool)
| EvContextCreated (group : Z) (name : StringView)
| EvContextDestroyed
| EvExceptionThrown (details : StringView) (error : Local Value)
    (text url : StringView) (line column : Z) (stack : Local StackTrace)
    (script_id : Z)
| EvSetData (slot : Z)
| EvInstallGlobal (name : string)
| EvAsyncInit (rc : Z)
| EvUnref
| EvIoNew (io : InspectorIo)
| EvIoStart (ok : bool)
| EvIoStop
| EvIoWaitForDisconnect
| EvFunctionCall (callee : Value) (argv : list Value).

(** What the collaborators answer.  The two calls of the pause loop run
    arbitrary work of the embedder (dispatching front-end messages,
    running scheduler tasks), which may call back into the client: they
    return the client as that work left it.  [Utf8ToStringView] is a
    helper declared outside this file. *)
Record Host (World Client : Type) := {
  WaitForFrontendMessageWhilePaused :
    InspectorSessionDelegate -> Client -> World -> bool * Client * World;
  PumpMessageLoop :
    Platform -> Environment -> Client -> World -> bool * Client * World;
  InspectorIo_Start : InspectorIo -> World -> bool * World;
  InspectorIo_IsConnected : InspectorIo -> World -> bool;
  InspectorIo_WaitForDisconnect : InspectorIo -> World -> World;
  uv_async_init : World -> Z * World;
  Function_Call : Value -> list Value -> World -> Local Value * World;
  Utf8ToStringView : string -> StringView
}.

Arguments WaitForFrontendMessageWhilePaused {World Client} _ _ _ _.
Arguments PumpMessageLoop {World Client} _ _ _ _ _.
Arguments InspectorIo_Start {World Client} _ _ _.
Arguments InspectorIo_IsConnected {World Client} _ _ _.
Arguments InspectorIo_WaitForDisconnect {World Client} _ _ _.
Arguments uv_async_init {World Client} _ _.
Arguments Function_Call {World Client} _ _ _ _.
Arguments Utf8ToStringView {World Client} _ _.

(** A computation reads and changes the world, appends to the trace and
    returns, crashes or runs out of fuel. *)
Definition M (World A : Type) : Type :=
  World -> list Event * outcome (A * World).

Definition ret {World A : Type} (a : A) : M World A :=
  fun w => ([], Ret (a, w)).

Definition bind {World A B : Type} (m : M World A) (k : A -> M World B)
  : M World B :=
  fun w =>
    match m w with
    | (t, Ret (a, w')) => let (t', o) := k a w' in (t ++ t', o)
    | (t, Crash f) => (t, Crash f)
    | (t, OutOfFuel) => (t, OutOfFuel)
    end.

Definition emit {World : Type} (e : Event) : M World unit :=
  fun w => ([e], Ret (tt, w)).

Definition crash {World A : Type} (f : fault) : M World A :=
  fun w => ([], Crash f).

Definition out_of_fuel {World A : Type} : M World A :=
  fun w => ([], OutOfFuel).

Definition assert {World : Type} (holds : bool) (condition : string)
  : M World unit :=
  if holds then ret tt else crash (AssertionFailed condition).

(** A host call that answers and moves the world. *)
Definition ask {World A : Type} (f : World -> A * World) (e : A -> Event)
  : M World A :=
  fun w => let (a, w') := f w in ([e a], Ret (a, w')).

Declare Scope inspector_scope.
Delimit Scope inspector_scope with insp.

Notation "x <- m ;; k" := (bind m (fun x => k))
  (at level 61, m at next level, right associativity) : inspector_scope.
Notation "' p <- m ;; k" := (bind m (fun x => let p := x in k))
  (at level 61, p pattern, m at next level, right associativity)
  : inspector_scope.
Notation "m ;; k" := (bind m (fun _ => k))
  (at level 61, right associativity) : inspector_scope.

Local Open Scope inspector_scope.

Definition trace_of {World A : Type} (r : list Event * outcome (A * World))
  : list Event := fst r.

Definition outcome_of {World A : Type} (r : list Event * outcome (A * World))
  : outcome (A * World) := snd r.

(** ** [ChannelImpl], lines 103-150 *)

Module ChannelImpl.

(** [session_] is made by the constructor and released by the
    destructor; both are events. *)
Record t := { delegate_ : InspectorSessionDelegate }.

Section Methods.
Context {World Client : Type} (host : Host World Client).

Definition new (delegate : InspectorSessionDelegate) : M World t :=
  emit (EvInspectorConnect 1 delegate StringView_default);;
  ret {| delegate_ := delegate |}.

Definition destroy (ch : t) : M World unit :=
  emit (EvSessionRelease (delegate_ ch)).

Definition dispatchProtocolMessage (message : StringView) (ch : t)
  : M World unit :=
  emit (EvDispatchProtocolMessage message).

Definition waitForFrontendMessage (ch : t) (client : Client)
  : M World (bool * Client) :=
  fun w =>
    let '(result, client', w') :=
      WaitForFrontendMessageWhilePaused host (delegate_ ch) client w in
    ([EvWaitForFrontendMessage (delegate_ ch) result],
     Ret ((result, client'), w')).

Definition schedulePauseOnNextStatement (reason : string) (ch : t)
  : M World unit :=
  let buffer := Utf8ToStringView host reason in
  emit (EvSchedulePauseOnNextStatement buffer buffer).

Definition delegate (ch : t) : InspectorSessionDelegate := delegate_ ch.

Definition sendMessageToFrontend (message : StringView) (ch : t)
  : M World unit :=
  emit (EvSendMessageToFrontend (delegate_ ch) message).

Definition sendResponse (callId : Z) (message : StringView) (ch : t)
  : M World unit :=
  sendMessageToFrontend message ch.

Definition sendNotification (message : StringView) (ch : t)
  : M World unit :=
  sendMessageToFrontend message ch.

Definition flushProtocolNotifications (ch : t) : M World unit := ret tt.
End Methods.

End ChannelImpl.

(** ** [NodeInspectorClient], lines 154-257 *)

Module NodeInspectorClient.

(** The engine handle [client_] is made by the constructor and never
    assigned again; it is left to the events. *)
Record t := {
  env_ : Environment;
  platform_ : Platform;
  terminated_ : bool;
  running_nested_loop_ : bool;
  channel_ : option ChannelImpl.t
}.

Definition set_terminated (b : bool) (c : t) : t :=
  {| env_ := env_ c; platform_ := platform_ c; terminated_ := b;
     running_nested_loop_ := running_nested_loop_ c;
     channel_ := channel_ c |}.

Definition set_running_nested_loop (b : bool) (c : t) : t :=
  {| env_ := env_ c; platform_ := platform_ c;
     terminated_ := terminated_ c; running_nested_loop_ := b;
     channel_ := channel_ c |}.

Definition set_channel (ch : option ChannelImpl.t) (c : t) : t :=
  {| env_ := env_ c; platform_ := platform_ c;
     terminated_ := terminated_ c;
     running_nested_loop_ := running_nested_loop_ c; channel_ := ch |}.

(** The text [DETAILS] of line 230, eight 8-bit characters. *)
Definition DETAILS : StringView :=
  StringView8 [85; 110; 99; 97; 117; 103; 104; 116].

(** Lines 220-228: the script id handed to [exceptionThrown].  Line 220
    stores the 64-bit value in an [int]. *)
Definition fatal_script_id (message : Message) : Z :=
  let script_id := to_int (ScriptID message) in
  match GetStackTrace message with
  | None => script_id
  | Some stack_trace =>
      if 0 <? GetFrameCount stack_trace then
        match GetFrame stack_trace 0 with
        | Some frame =>
            if script_id =? GetScriptId frame then 0 else script_id
        | None => script_id
        end
      else script_id
  end.

Section Methods.
Context {World : Type} (host : Host World t).

Definition new (env : Environment) (platform : Platform) : M World t :=
  emit (EvInspectorCreate env);;
  ret {| env_ := env; platform_ := platform; terminated_ := false;
         running_nested_loop_ := false; channel_ := None |}.

(** The implicit destructor: members go in reverse order of
    declaration, the channel before the engine handle. *)
Definition destroy (c : t) : M World unit :=
  match channel_ c with
  | Some ch => ChannelImpl.destroy ch
  | None => ret tt
  end;;
  emit EvInspectorRelease.

(** One call of [v8::platform::PumpMessageLoop] (line 171). *)
Definition pump_once (c : t) : M World (bool * t) :=
  fun w =>
    let '(more, c', w') :=
      PumpMessageLoop host (platform_ c) (env_ c) c w in
    ([EvPumpMessageLoop (platform_ c) more], Ret ((more, c'), w')).

(** The inner loop of lines 171-172. *)
Fixpoint pump_all (fuel : nat) (c : t) : M World t :=
  match fuel with
  | O => out_of_fuel
  | S fuel' =>
      '(more, c') <- pump_once c;;
      if more then pump_all fuel' c' else ret c'
  end.

(** The outer loop of lines 170-173.  [&&] evaluates its right side
    only when [terminated_] is false. *)
Fixpoint pause_loop (fuel : nat) (c : t) : M World t :=
  match fuel with
  | O => out_of_fuel
  | S fuel' =>
      emit (EvCheckTerminated (terminated_ c));;
      if terminated_ c then ret c
      else
        match channel_ c with
        | None => crash (NullDereference "channel_")
        | Some ch =>
            '(more, c1) <- ChannelImpl.waitForFrontendMessage host ch c;;
            if more then
              c2 <- pump_all fuel' c1;;
              pause_loop fuel' c2
            else ret c1
        end
  end.

(** Lines 164-176. *)
Definition runMessageLoopOnPause (fuel : nat) (context_group_id : Z)
  (c : t) : M World t :=
  assert (negb (IsEmpty (channel_ c))) "channel_ != nullptr";;
  if running_nested_loop_ c then ret c
  else
    let c := set_terminated false c in
    let c := set_running_nested_loop true c in
    c <- pause_loop fuel c;;
    let c := set_terminated false c in
    let c := set_running_nested_loop false c in
    ret c.

(** Lines 182-191. *)
Definition contextCreated (name : string) (c : t) : M World unit :=
  let name_buffer := Utf8ToStringView host name in
  emit (EvContextCreated CONTEXT_GROUP_ID name_buffer).

Definition contextDestroyed (c : t) : M World unit :=
  emit EvContextDestroyed.

(** Lines 193-195. *)
Definition quitMessageLoopOnPause (c : t) : M World t :=
  emit EvQuitMessageLoopOnPause;;
  ret (set_terminated true c).

(** Lines 197-201. *)
Definition connectFrontend (delegate : InspectorSessionDelegate) (c : t)
  : M World t :=
  assert (IsEmpty (channel_ c)) "channel_ == nullptr";;
  ch <- ChannelImpl.new delegate;;
  ret (set_channel (Some ch) c).

(** Lines 203-206; [reset] destroys the channel it held, if any. *)
Definition disconnectFrontend (c : t) : M World t :=
  c <- quitMessageLoopOnPause c;;
  match channel_ c with
  | Some ch => ChannelImpl.destroy ch
  | None => ret tt
  end;;
  ret (set_channel None c).

(** Lines 208-211. *)
Definition dispatchMessageFromFrontend (message : StringView) (c : t)
  : M World unit :=
  assert (negb (IsEmpty (channel_ c))) "channel_ != nullptr";;
  match channel_ c with
  | Some ch => ChannelImpl.dispatchProtocolMessage message ch
  | None => crash (NullDereference "channel_")
  end.

(** Lines 217-244. *)
Definition FatalException (error : Local Value) (message : Message)
  (c : t) : M World unit :=
  let script_id := fatal_script_id message in
  emit (EvExceptionThrown DETAILS error
          (ToProtocolString (Get message))
          (ToProtocolString (GetScriptResourceName message))
          (FromMaybe (GetLineNumber message) 0)
          (FromMaybe (GetStartColumn message) 0)
          (GetStackTrace message)
          script_id).

Definition channel (c : t) : option ChannelImpl.t := channel_ c.
End Methods.

End NodeInspectorClient.

(** ** [Agent], lines 259-381 *)

Module Agent.

Record t := {
  parent_env_ : option Environment;
  client_ : option NodeInspectorClient.t;
  platform_ : option Platform;
  enabled_ : bool;
  io_ : option InspectorIo;
  path_ : string
}.

Definition set_parent_env (e : option Environment) (a : t) : t :=
  {| parent_env_ := e; client_ := client_ a; platform_ := platform_ a;
     enabled_ := enabled_ a; io_ := io_ a; path_ := path_ a |}.

Definition set_client (c : option NodeInspectorClient.t) (a : t) : t :=
  {| parent_env_ := parent_env_ a; client_ := c; platform_ := platform_ a;
     enabled_ := enabled_ a; io_ := io_ a; path_ := path_ a |}.

Definition set_platform (p : option Platform) (a : t) : t :=
  {| parent_env_ := parent_env_ a; client_ := client_ a; platform_ := p;
     enabled_ := enabled_ a; io_ := io_ a; path_ := path_ a |}.

Definition set_enabled (b : bool) (a : t) : t :=
  {| parent_env_ := parent_env_ a; client_ := client_ a;
     platform_ := platform_ a; enabled_ := b; io_ := io_ a;
     path_ := path_ a |}.

Definition set_io (io : option InspectorIo) (a : t) : t :=
  {| parent_env_ := parent_env_ a; client_ := client_ a;
     platform_ := platform_ a; enabled_ := enabled_ a; io_ := io;
     path_ := path_ a |}.

Definition set_path (p : string) (a : t) : t :=
  {| parent_env_ := parent_env_ a; client_ := client_ a;
     platform_ := platform_ a; enabled_ := enabled_ a; io_ := io_ a;
     path_ := p |}.

(** Lines 259-262; [io_] and [path_] take their defaults. *)
Definition new : t :=
  {| parent_env_ := None; client_ := None; platform_ := None;
     enabled_ := false; io_ := None; path_ := EmptyString |}.

(** The controller of line 303: [InspectorIo(parent_env_, platform_,
    path_, true)]. *)
Definition new_io (a : t) : InspectorIo :=
  {| io_env := parent_env_ a; io_platform := platform_ a;
     io_path := path_ a; io_wait_for_connect := true |}.

(** Modelled from the spec: [IsStarted] is declared in
    [inspector_agent.h], which is not among the sources.  The spec has
    [onFatalException] do nothing "if the agent was never started" and
    [start] construct the Session Client: the agent counts as started
    while it holds a Session Client. *)
Definition IsStarted (a : t) : bool := negb (IsEmpty (client_ a)).

Section Methods.
Context {World : Type} (host : Host World NodeInspectorClient.t).

Definition release_client (a : t) : M World unit :=
  match client_ a with
  | Some c => NodeInspectorClient.destroy c
  | None => ret tt
  end.

(** Lines 295-310.  The controller is always built with [true] as
    its last argument; [wait_for_connect] is not read. *)
Definition StartIoThread (wait_for_connect : bool) (a : t)
  : M World (bool * t) :=
  if negb (IsEmpty (io_ a)) then ret (true, a)
  else
    assert (negb (IsEmpty (client_ a))) "client_ != nullptr";;
    let a := set_enabled true a in
    let io := new_io a in
    emit (EvIoNew io);;
    let a := set_io (Some io) a in
    ok <- ask (InspectorIo_Start host io) EvIoStart;;
    if negb ok then
      release_client a;;
      ret (false, set_client None a)
    else ret (true, a).

(** Lines 269-293.  [path] is [None] for a null pointer. *)
Definition Start (env : Environment) (platform : Platform)
  (path : option string) (a : t) : M World (bool * t) :=
  let a := set_path (match path with
                     | None => EmptyString
                     | Some p => p
                     end) a in
  let a := set_parent_env (Some env) a in
  emit (EvSetData 0);;
  emit (EvInstallGlobal "callAndPauseOnStart");;
  c <- NodeInspectorClient.new env platform;;
  release_client a;;
  let a := set_client (Some c) a in
  NodeInspectorClient.contextCreated host "CB debugger context" c;;
  let a := set_platform (Some platform) a in
  rc <- ask (uv_async_init host) EvAsyncInit;;
  assert (0 =? rc) "0 == uv_async_init(...)";;
  emit EvUnref;;
  StartIoThread true a.

(** Lines 312-317. *)
Definition Stop (a : t) : M World t :=
  match io_ a with
  | Some _ =>
      emit EvIoStop;;
      ret (set_io None a)
  | None => ret a
  end.

(** Lines 319-322: no assertion guards the dereference. *)
Definition Connect (delegate : InspectorSessionDelegate) (a : t)
  : M World t :=
  let a := set_enabled true a in
  match client_ a with
  | None => crash (NullDereference "client_")
  | Some c =>
      c <- NodeInspectorClient.connectFrontend delegate c;;
      ret (set_client (Some c) a)
  end.

(** Lines 324-326. *)
Definition IsConnected (a : t) : M World bool :=
  fun w =>
    match io_ a with
    | Some io => ([], Ret (InspectorIo_IsConnected host io w, w))
    | None => ([], Ret (false, w))
    end.

(** Lines 328-334. *)
Definition WaitForDisconnect (a : t) : M World unit :=
  assert (negb (IsEmpty (client_ a))) "client_ != nullptr";;
  match client_ a with
  | None => crash (NullDereference "client_")
  | Some c =>
      NodeInspectorClient.contextDestroyed c;;
      match io_ a with
      | Some io =>
          fun w =>
            ([EvIoWaitForDisconnect],
             Ret (tt, InspectorIo_WaitForDisconnect host io w))
      | None => ret tt
      end
  end.

(** Lines 336-341. *)
Definition FatalException (error : Local Value) (message : Message)
  (a : t) : M World unit :=
  if negb (IsStarted a) then ret tt
  else
    match client_ a with
    | None => crash (NullDereference "client_")
    | Some c =>
        NodeInspectorClient.FatalException error message c;;
        WaitForDisconnect a
    end.

(** Lines 343-346. *)
Definition Dispatch (message : StringView) (a : t) : M World unit :=
  assert (negb (IsEmpty (client_ a))) "client_ != nullptr";;
  match client_ a with
  | None => crash (NullDereference "client_")
  | Some c => NodeInspectorClient.dispatchMessageFromFrontend message c
  end.

(** Lines 348-351. *)
Definition Disconnect (a : t) : M World t :=
  assert (negb (IsEmpty (client_ a))) "client_ != nullptr";;
  match client_ a with
  | None => crash (NullDereference "client_")
  | Some c =>
      c <- NodeInspectorClient.disconnectFrontend c;;
      ret (set_client (Some c) a)
  end.

(** Lines 358-364. *)
Definition delegate (a : t) : M World (option InspectorSessionDelegate) :=
  assert (negb (IsEmpty (client_ a))) "client_ != nullptr";;
  match client_ a with
  | None => crash (NullDereference "client_")
  | Some c =>
      match NodeInspectorClient.channel c with
      | None => ret None
      | Some ch => ret (Some (ChannelImpl.delegate ch))
      end
  end.

(** Lines 366-370: no assertion guards the dereference. *)
Definition PauseOnNextJavascriptStatement (reason : string) (a : t)
  : M World unit :=
  match client_ a with
  | None => crash (NullDereference "client_")
  | Some c =>
      match NodeInspectorClient.channel c with
      | Some ch => ChannelImpl.schedulePauseOnNextStatement host reason ch
      | None => ret tt
      end
  end.
End Methods.

End Agent.

(** ** [CallAndPauseOnStart], lines 56-75 *)

Section DebuggerEntry.
Context {World : Type} (host : Host World NodeInspectorClient.t).

(** The loop of lines 62-64: [args[i]] for [i] from 1 up to the length. *)
Definition collect_call_args (args : list Value) : list Value :=
  flat_map (fun i => match nth_error args i with
                     | Some v => [v]
                     | None => []
                     end)
           (seq 1 (List.length args - 1)).

(** [agent] is what [isolate->GetData(0)] holds, the agent that
    installed the callback.  The result is the return-value slot of the
    callback: [None] while nothing was set.  With no argument at all
    the first assertion has failed already; [args[0]] would be
    undefined there, not a function. *)
Definition CallAndPauseOnStart (agent : Agent.t) (args : list Value)
  : M World (option Value) :=
  assert (1 <=? Z.of_nat (List.length args)) "args.Length() >= 1";;
  match args with
  | [] => crash (AssertionFailed "args[0]->IsFunction()")
  | callee :: _ =>
      assert (IsFunction callee) "args[0]->IsFunction()";;
      let call_args := collect_call_args args in
      Agent.PauseOnNextJavascriptStatement host "Break on start" agent;;
      retval <- ask (Function_Call host callee call_args)
                  (fun _ => EvFunctionCall callee call_args);;
      match retval with
      | Some v => ret (Some v)
      | None => ret None
      end
  end.
End DebuggerEntry.

(** ** Shapes of traces *)

(** [PumpMessageLoop] called until it answers false. *)
Inductive pump_phase : list Event -> Prop :=
| pump_last p : pump_phase [EvPumpMessageLoop p false]
| pump_again p t :
    pump_phase t -> pump_phase (EvPumpMessageLoop p true :: t).

(** A finished run of the pause loop: iterations that check the flag,
    wait and drain, closed by a check that reads true or by a wait that
    answers false. *)
Inductive pause_trace : list Event -> Prop :=
| pause_exit_terminated : pause_trace [EvCheckTerminated true]
| pause_exit_wait d :
    pause_trace [EvCheckTerminated false; EvWaitForFrontendMessage d false]
| pause_iteration d pumps rest :
    pump_phase pumps ->
    pause_trace rest ->
    pause_trace (EvCheckTerminated false
                   :: EvWaitForFrontendMessage d true :: pumps ++ rest).

(** The loop as the specification tells it, without fuel: what the
    collaborators answer decides each step.  [drains c w t c' w']: from
    client [c] and world [w] the scheduler is pumped until it answers
    false, with events [t], leaving [c'] and [w'].  [pauses c w t c' w']:
    the loop checks the flag and leaves when it is set; otherwise it
    waits for the front-end and leaves when the wait answers false;
    otherwise it drains and starts over. *)
Section LoopRuns.
Context {World : Type} (host : Host World NodeInspectorClient.t).

Inductive drains :
  NodeInspectorClient.t -> World -> list Event ->
  NodeInspectorClient.t -> World -> Prop :=
| drains_last c w c' w' :
    PumpMessageLoop host (NodeInspectorClient.platform_ c)
      (NodeInspectorClient.env_ c) c w = (false, c', w') ->
    drains c w [EvPumpMessageLoop (NodeInspectorClient.platform_ c) false]
      c' w'
| drains_again c w c1 w1 t c' w' :
    PumpMessageLoop host (NodeInspectorClient.platform_ c)
      (NodeInspectorClient.env_ c) c w = (true, c1, w1) ->
    drains c1 w1 t c' w' ->
    drains c w
      (EvPumpMessageLoop (NodeInspectorClient.platform_ c) true :: t) c' w'.

Inductive pauses :
  NodeInspectorClient.t -> World -> list Event ->
  NodeInspectorClient.t -> World -> Prop :=
| pauses_terminated c w :
    NodeInspectorClient.terminated_ c = true ->
    pauses c w [EvCheckTerminated true] c w
| pauses_frontend_gone c w ch c1 w1 :
    NodeInspectorClient.terminated_ c = false ->
    NodeInspectorClient.channel_ c = Some ch ->
    WaitForFrontendMessageWhilePaused host (ChannelImpl.delegate_ ch) c w
    = (false, c1, w1) ->
    pauses c w
      [EvCheckTerminated false;
       EvWaitForFrontendMessage (ChannelImpl.delegate_ ch) false]
      c1 w1
| pauses_iteration c w ch c1 w1 pumps c2 w2 rest c' w' :
    NodeInspectorClient.terminated_ c = false ->
    NodeInspectorClient.channel_ c = Some ch ->
    WaitForFrontendMessageWhilePaused host (ChannelImpl.delegate_ ch) c w
    = (true, c1, w1) ->
    drains c1 w1 pumps c2 w2 ->
    pauses c2 w2 rest c' w' ->
    pauses c w
      (EvCheckTerminated false
         :: EvWaitForFrontendMessage (ChannelImpl.delegate_ ch) true
         :: pumps ++ rest)
      c' w'.
End LoopRuns.

(** The two ways out of the loop, read off the end of its trace. *)
Definition exits_by_flag_or_wait (t : list Event) : Prop :=
  exists before,
    t = before ++ [EvCheckTerminated true] \/
    exists d,
      t = before ++ [EvCheckTerminated false;
                     EvWaitForFrontendMessage d false].

Definition is_bind (e : Event) : bool :=
  match e with EvIoStart _ => true | _ => false end.

Definition is_wait_for_disconnect (e : Event) : bool :=
  match e with EvIoWaitForDisconnect => true | _ => false end.

Definition is_exception_thrown (e : Event) : bool :=
  match e with EvExceptionThrown _ _ _ _ _ _ _ _ => true | _ => false end.

Definition is_io_new (e : Event) : bool :=
  match e with EvIoNew _ => true | _ => false end.

Definition count_events (p : Event -> bool) (t : list Event) : nat :=
  List.length (filter p t).

(** ** Sequences of calls *)

Inductive FrontendCall :=
| CallConnect (delegate : InspectorSessionDelegate)
| CallDisconnect.

(** No connect while a channel is attached. *)
Fixpoint no_overlap (attached : bool) (calls : list FrontendCall) : bool :=
  match calls with
  | [] => true
  | CallConnect _ :: rest => negb attached && no_overlap true rest
  | CallDisconnect :: rest => no_overlap false rest
  end.

(** The delegate of the connect that no disconnect has matched yet. *)
Fixpoint open_connect (current : option InspectorSessionDelegate)
  (calls : list FrontendCall) : option InspectorSessionDelegate :=
  match calls with
  | [] => current
  | CallConnect d :: rest => open_connect (Some d) rest
  | CallDisconnect :: rest => open_connect None rest
  end.

(** The channel that a connect to [d] makes. *)
Definition channel_for (d : option InspectorSessionDelegate)
  : option ChannelImpl.t :=
  match d with
  | Some d => Some {| ChannelImpl.delegate_ := d |}
  | None => None
  end.

(** What [channel_.reset()] releases. *)
Definition released (c : NodeInspectorClient.t) : list Event :=
  match NodeInspectorClient.channel_ c with
  | Some ch => [EvSessionRelease (ChannelImpl.delegate_ ch)]
  | None => []
  end.

(** The condition of line 224-226, in the words of the specification:
    there is a stack trace, it has a frame, and the top frame is of the
    message's script. *)
Definition top_frame_is_message_script (message : Message) : Prop :=
  exists stack_trace top below,
    GetStackTrace message = Some stack_trace
    /\ frames stack_trace = top :: below
    /\ GetScriptId top = ScriptID message.

(** The same condition on the script id as line 220 holds it, in an
    [int]. *)
Definition top_frame_is_narrowed_script (message : Message) : Prop :=
  exists stack_trace top below,
    GetStackTrace message = Some stack_trace
    /\ frames stack_trace = top :: below
    /\ GetScriptId top = to_int (ScriptID message).

(** A message whose script id does not fit an [int]. *)
Definition wide_message : Message :=
  {| ScriptID := 2 ^ 32 + 17;
     GetStackTrace := Some {| frames := [{| GetScriptId := 17 |}] |};
     Get := None;
     GetScriptResourceName := None;
     GetLineNumber := None;
     GetStartColumn := None |}.

(** The script ids that reach [exceptionThrown]. *)
Definition thrown_script_ids (t : list Event) : list Z :=
  flat_map (fun e => match e with
                     | EvExceptionThrown _ _ _ _ _ _ _ script_id => [script_id]
                     | _ => []
                     end) t.

Section Sequences.
Context {World : Type} (host : Host World NodeInspectorClient.t).

Definition frontend_call (call : FrontendCall) (c : NodeInspectorClient.t)
  : M World NodeInspectorClient.t :=
  match call with
  | CallConnect d => NodeInspectorClient.connectFrontend d c
  | CallDisconnect => NodeInspectorClient.disconnectFrontend c
  end.

Fixpoint frontend_calls (calls : list FrontendCall)
  (c : NodeInspectorClient.t) : M World NodeInspectorClient.t :=
  match calls with
  | [] => ret c
  | call :: rest =>
      c <- frontend_call call c;;
      frontend_calls rest c
  end.

(** Two calls of [StartIoThread] in a row, nothing in between. *)
Definition StartIoThread_twice (first second : bool) (a : Agent.t)
  : M World (bool * bool * Agent.t) :=
  '(r1, a) <- Agent.StartIoThread host first a;;
  '(r2, a) <- Agent.StartIoThread host second a;;
  ret (r1, r2, a).
End Sequences.

(** ** A scripted host, for running the model *)

Inductive Callback := CbNothing | CbQuit | CbDisconnect.

Record ScriptedWorld := {
  frontend : list (bool * Callback);
  tasks : list (bool * Callback);
  binds : list bool;
  async_rc : Z;
  results : list (Local Value)
}.

(** What the client is after the embedder's work called back into it. *)
Definition run_callback {World : Type} (cb : Callback)
  (c : NodeInspectorClient.t) (w : World) : NodeInspectorClient.t :=
  match cb with
  | CbNothing => c
  | CbQuit =>
      match NodeInspectorClient.quitMessageLoopOnPause c w with
      | (_, Ret (c', _)) => c'
      | _ => c
      end
  | CbDisconnect =>
      match NodeInspectorClient.disconnectFrontend c w with
      | (_, Ret (c', _)) => c'
      | _ => c
      end
  end.

Definition scripted_host : Host ScriptedWorld NodeInspectorClient.t :=
  {| WaitForFrontendMessageWhilePaused := fun _ c w =>
       match frontend w with
       | [] => (false, c, w)
       | (answer, cb) :: rest =>
           (answer, run_callback cb c w,
            {| frontend := rest; tasks := tasks w; binds := binds w;
               async_rc := async_rc w; results := results w |})
       end;
     PumpMessageLoop := fun _ _ c w =>
       match tasks w with
       | [] => (false, c, w)
       | (answer, cb) :: rest =>
           (answer, run_callback cb c w,
            {| frontend := frontend w; tasks := rest; binds := binds w;
               async_rc := async_rc w; results := results w |})
       end;
     InspectorIo_Start := fun _ w =>
       match binds w with
       | [] => (false, w)
       | ok :: rest =>
           (ok, {| frontend := frontend w; tasks := tasks w; binds := rest;
                   async_rc := async_rc w; results := results w |})
       end;
     InspectorIo_IsConnected := fun _ _ => false;
     InspectorIo_WaitForDisconnect := fun _ w => w;
     uv_async_init := fun w => (async_rc w, w);
     Function_Call := fun _ _ w =>
       match results w with
       | [] => (None, w)
       | r :: rest =>
           (r, {| frontend := frontend w; tasks := tasks w;
                  binds := binds w; async_rc := async_rc w;
                  results := rest |})
       end;
     Utf8ToStringView := fun s =>
       StringView16
         (map (fun a => Z.of_nat (Ascii.nat_of_ascii a))
              (list_ascii_of_string s)) |}.

Definition quiet_world : ScriptedWorld :=
  {| frontend := []; tasks := []; binds := []; async_rc := 0;
     results := [] |}.

Definition sample_env : Environment := env_handle 0.
Definition sample_platform : Platform := platform_handle 0.
Definition sample_delegate : InspectorSessionDelegate := delegate_handle 7.

(** A client as [connectFrontend] leaves a new one. *)
Definition connected_client : NodeInspectorClient.t :=
  {| NodeInspectorClient.env_ := sample_env;
     NodeInspectorClient.platform_ := sample_platform;
     NodeInspectorClient.terminated_ := false;
     NodeInspectorClient.running_nested_loop_ := false;
     NodeInspectorClient.channel_ :=
       Some {| ChannelImpl.delegate_ := sample_delegate |} |}.

(** The same client inside the pause loop, and as a disconnect made by
    the embedder's work during that loop leaves it. *)
Definition paused_client : NodeInspectorClient.t :=
  NodeInspectorClient.set_running_nested_loop true
    (NodeInspectorClient.set_terminated false connected_client).

Definition disconnected_while_paused : NodeInspectorClient.t :=
  run_callback CbDisconnect paused_client quiet_world.

(** A front-end that sends two messages and then resumes; the first
    message leaves two tasks for the scheduler. *)
Definition resuming_world : ScriptedWorld :=
  {| frontend := [(true, CbNothing); (true, CbQuit)];
     tasks := [(true, CbNothing); (true, CbNothing); (false, CbNothing)];
     binds := []; async_rc := 0; results := [] |}.

(** A front-end that goes away while the loop waits for it. *)
Definition leaving_world : ScriptedWorld :=
  {| frontend := [(true, CbDisconnect)]; tasks := []; binds := [];
     async_rc := 0; results := [] |}.

(** A transport whose bind succeeds. *)
Definition binding_world : ScriptedWorld :=
  {| frontend := []; tasks := []; binds := [true]; async_rc := 0;
     results := [] |}.

(** A script function that returns a value. *)
Definition returning_world : ScriptedWorld :=
  {| frontend := []; tasks := []; binds := []; async_rc := 0;
     results := [Some (VOther 42)] |}.

Definition new_client : NodeInspectorClient.t :=
  {| NodeInspectorClient.env_ := sample_env;
     NodeInspectorClient.platform_ := sample_platform;
     NodeInspectorClient.terminated_ := false;
     NodeInspectorClient.running_nested_loop_ := false;
     NodeInspectorClient.channel_ := None |}.

Definition sample_io : InspectorIo :=
  {| io_env := Some sample_env; io_platform := Some sample_platform;
     io_path := EmptyString; io_wait_for_connect := true |}.

(** The agent as a [Start] whose bind succeeded leaves it, and as one
    whose bind failed leaves it. *)
Definition started_agent : Agent.t :=
  {| Agent.parent_env_ := Some sample_env;
     Agent.client_ := Some new_client;
     Agent.platform_ := Some sample_platform;
     Agent.enabled_ := true;
     Agent.io_ := Some sample_io;
     Agent.path_ := EmptyString |}.

Definition unbound_agent : Agent.t := Agent.set_client None started_agent.

(** The started agent after a [Stop]. *)
Definition stopped_agent : Agent.t := Agent.set_io None started_agent.

Definition sample_message : Message :=
  {| ScriptID := 17;
     GetStackTrace := Some {| frames := [{| GetScriptId := 17 |};
                                         {| GetScriptId := 4 |}] |};
     Get := Some (VString [111; 111; 112; 115]);
     GetScriptResourceName := Some (VString [97; 46; 106; 115]);
     GetLineNumber := Some 3;
     GetStartColumn := None |}.

(** ** The deliveries of a start request, lines 44-54 and 90-97

    [RequestIoThreadStart] arms three ways to reach the execution thread;
    each of them ends in one of these callbacks, and each callback is
    [StartIoThread(false)] with the result dropped. *)

Section Deliveries.
Context {World : Type} (host : Host World NodeInspectorClient.t).

Definition StartIoTask_Run (agent : Agent.t) : M World Agent.t :=
  '(_, agent) <- Agent.StartIoThread host false agent;;
  ret agent.

Definition StartIoThreadAsyncCallback (agent : Agent.t) : M World Agent.t :=
  '(_, agent) <- Agent.StartIoThread host false agent;;
  ret agent.

Definition StartIoInterrupt (agent : Agent.t) : M World Agent.t :=
  '(_, agent) <- Agent.StartIoThread host false agent;;
  ret agent.
End Deliveries.

Inductive Delivery := ByTask | ByAsync | ByInterrupt.

Section DeliverySequences.
Context {World : Type} (host : Host World NodeInspectorClient.t).

Definition deliver (d : Delivery) (agent : Agent.t) : M World Agent.t :=
  match d with
  | ByTask => StartIoTask_Run host agent
  | ByAsync => StartIoThreadAsyncCallback host agent
  | ByInterrupt => StartIoInterrupt host agent
  end.

Fixpoint deliver_all (ds : list Delivery) (agent : Agent.t)
  : M World Agent.t :=
  match ds with
  | [] => ret agent
  | d :: rest =>
      agent <- deliver d agent;;
      deliver_all rest agent
  end.
End DeliverySequences.

(** ** Calls into the client while the loop is paused *)

(** What the loop relies on while it runs: the running flag is set, and
    a released channel comes with a set [terminated_]. *)
Definition loop_invariant (c : NodeInspectorClient.t) : bool :=
  NodeInspectorClient.running_nested_loop_ c
  && (negb (IsEmpty (NodeInspectorClient.channel_ c))
      || NodeInspectorClient.terminated_ c).

(** The members of the client that the embedder's work can call. *)
Inductive ClientCall :=
| DoQuit
| DoConnect (delegate : InspectorSessionDelegate)
| DoDisconnect
| DoDispatch (message : StringView)
| DoPause (context_group_id : Z)
| DoContextDestroyed
| DoFatalException (error : Local Value) (message : Message).

Section ClientCalls.
Context {World : Type} (host : Host World NodeInspectorClient.t).

Definition client_call (fuel : nat) (call : ClientCall)
  (c : NodeInspectorClient.t) : M World NodeInspectorClient.t :=
  match call with
  | DoQuit => NodeInspectorClient.quitMessageLoopOnPause c
  | DoConnect d => NodeInspectorClient.connectFrontend d c
  | DoDisconnect => NodeInspectorClient.disconnectFrontend c
  | DoDispatch m =>
      NodeInspectorClient.dispatchMessageFromFrontend m c;;
      ret c
  | DoPause gid => NodeInspectorClient.runMessageLoopOnPause host fuel gid c
  | DoContextDestroyed =>
      NodeInspectorClient.contextDestroyed c;;
      ret c
  | DoFatalException error message =>
      NodeInspectorClient.FatalException error message c;;
      ret c
  end.
End ClientCalls.

(** What releasing the agent's client, if it has one, lets go of: the
    session of an attached channel, then the engine handle. *)
Definition client_release_events (cl : option NodeInspectorClient.t)
  : list Event :=
  match cl with
  | Some c => released c ++ [EvInspectorRelease]
  | None => []
  end.

(** The client that [Start] makes, the controller it asks for and the
    agent it hands to [StartIoThread] (lines 270-281). *)
Definition Start_path (path : option string) : string :=
  match path with
  | None => EmptyString
  | Some p => p
  end.

Definition Start_client (env : Environment) (platform : Platform)
  : NodeInspectorClient.t :=
  {| NodeInspectorClient.env_ := env;
     NodeInspectorClient.platform_ := platform;
     NodeInspectorClient.terminated_ := false;
     NodeInspectorClient.running_nested_loop_ := false;
     NodeInspectorClient.channel_ := None |}.

Definition Start_agent (env : Environment) (platform : Platform)
  (path : option string) (a : Agent.t) : Agent.t :=
  Agent.set_platform (Some platform)
    (Agent.set_client (Some (Start_client env platform))
       (Agent.set_parent_env (Some env)
          (Agent.set_path (Start_path path) a))).

(** ** The monad, unfolded *)

Lemma bind_run {World A B : Type} (m : M World A) (k : A -> M World B) w :
  bind m k w =
  match m w with
  | (t, Ret (a, w')) => (t ++ fst (k a w'), snd (k a w'))
  | (t, Crash f) => (t, Crash f)
  | (t, OutOfFuel) => (t, OutOfFuel)
  end.
Proof.
  unfold bind. destruct (m w) as [t [[a w']|f|]]; try reflexivity.
  destruct (k a w'); reflexivity.
Qed.

Lemma bind_emit {World B : Type} (e : Event) (k : unit -> M World B) w :
  bind (emit e) k w = (e :: fst (k tt w), snd (k tt w)).
Proof. rewrite bind_run. reflexivity. Qed.

Lemma bind_ret {World A B : Type} (a : A) (k : A -> M World B) w :
  bind (ret a) k w = k a w.
Proof. rewrite bind_run. simpl. destruct (k a w); reflexivity. Qed.

(** ** The pause loop *)

Section PauseLoop.
Context {World : Type} (host : Host World NodeInspectorClient.t).

Import NodeInspectorClient.

(** Draining: the calls made are [PumpMessageLoop] only; a run that
    returns has seen exactly one false answer, the last one. *)
Lemma pump_all_shape fuel : forall c w,
  match outcome_of (pump_all host fuel c w) with
  | Ret _ => pump_phase (trace_of (pump_all host fuel c w))
  | _ => exists rest, pump_phase (trace_of (pump_all host fuel c w) ++ rest)
  end.
Proof.
  induction fuel as [|fuel IH]; intros c w.
  - simpl. exists [EvPumpMessageLoop (platform_ c) false]. constructor.
  - cbn [pump_all]. rewrite bind_run. unfold pump_once.
    destruct (PumpMessageLoop host (platform_ c) (env_ c) c w)
      as [[more c'] w'].
    destruct more.
    + specialize (IH c' w'). unfold outcome_of, trace_of in *. simpl.
      destruct (snd (pump_all host fuel c' w')).
      * constructor. exact IH.
      * destruct IH as [rest IH]. exists rest. constructor. exact IH.
      * destruct IH as [rest IH]. exists rest. constructor. exact IH.
    + simpl. constructor.
Qed.

Lemma pump_all_no_crash fuel : forall c w f,
  outcome_of (pump_all host fuel c w) <> Crash f.
Proof.
  induction fuel as [|fuel IH]; intros c w f.
  - simpl. discriminate.
  - cbn [pump_all]. rewrite bind_run. unfold pump_once.
    destruct (PumpMessageLoop host (platform_ c) (env_ c) c w)
      as [[more c'] w'].
    destruct more; simpl.
    + apply IH.
    + discriminate.
Qed.

Lemma pause_loop_shape fuel : forall c w,
  match outcome_of (pause_loop host fuel c w) with
  | Ret _ => pause_trace (trace_of (pause_loop host fuel c w))
  | _ => exists rest,
           pause_trace (trace_of (pause_loop host fuel c w) ++ rest)
  end.
Proof.
  induction fuel as [|fuel IH]; intros c w.
  - simpl. exists [EvCheckTerminated true]. constructor.
  - cbn [pause_loop]. rewrite bind_emit.
    destruct (terminated_ c) eqn:Hterm.
    + simpl. constructor.
    + destruct (channel_ c) as [ch|].
      * rewrite bind_run. unfold ChannelImpl.waitForFrontendMessage.
        destruct (WaitForFrontendMessageWhilePaused host
                    (ChannelImpl.delegate_ ch) c w) as [[more c1] w1].
        destruct more.
        -- rewrite bind_run.
           pose proof (pump_all_shape fuel c1 w1) as Hp.
           unfold outcome_of, trace_of in Hp.
           destruct (pump_all host fuel c1 w1) as [tp [[c2 w2]|f|]];
             simpl in Hp.
           ++ specialize (IH c2 w2). unfold outcome_of, trace_of in *.
              simpl.
              destruct (snd (pause_loop host fuel c2 w2)).
              ** constructor; assumption.
              ** destruct IH as [rest IH]. exists rest. simpl.
                 rewrite <- app_assoc. constructor; assumption.
              ** destruct IH as [rest IH]. exists rest. simpl.
                 rewrite <- app_assoc. constructor; assumption.
           ++ destruct Hp as [r Hp]. simpl.
              exists (r ++ [EvCheckTerminated true]).
              rewrite app_assoc. constructor; [exact Hp | constructor].
           ++ destruct Hp as [r Hp]. simpl.
              exists (r ++ [EvCheckTerminated true]).
              rewrite app_assoc. constructor; [exact Hp | constructor].
        -- simpl. constructor.
      * simpl.
        exists [EvWaitForFrontendMessage (delegate_handle 0) false].
        constructor.
Qed.
End PauseLoop.

Section PauseEntry.
Context {World : Type} (host : Host World NodeInspectorClient.t).

Import NodeInspectorClient.

Lemma pause_loop_head fuel c w e :
  terminated_ c = false ->
  hd_error (trace_of (pause_loop host fuel c w)) = Some e ->
  e = EvCheckTerminated false.
Proof.
  intros Hterm. destruct fuel as [|fuel].
  - simpl. discriminate.
  - cbn [pause_loop]. rewrite bind_emit, Hterm. simpl. congruence.
Qed.

(** The loop itself never trips an assertion. *)
Lemma pause_loop_crash fuel : forall c w f,
  outcome_of (pause_loop host fuel c w) = Crash f ->
  f = NullDereference "channel_".
Proof.
  induction fuel as [|fuel IH]; intros c w f.
  - simpl. discriminate.
  - cbn [pause_loop]. rewrite bind_emit.
    destruct (terminated_ c); [simpl; discriminate|].
    destruct (channel_ c) as [ch|]; [|simpl; congruence].
    rewrite bind_run. unfold ChannelImpl.waitForFrontendMessage.
    destruct (WaitForFrontendMessageWhilePaused host
                (ChannelImpl.delegate_ ch) c w) as [[more c1] w1].
    destruct more; [|simpl; discriminate].
    rewrite bind_run.
    pose proof (pump_all_no_crash host fuel c1 w1) as Hp.
    unfold outcome_of in *.
    destruct (pump_all host fuel c1 w1) as [tp [[c2 w2]|f'|]]; simpl.
    + apply IH.
    + intros _. exfalso. apply (Hp f'). reflexivity.
    + discriminate.
Qed.

Lemma pause_trace_exit t : pause_trace t -> exits_by_flag_or_wait t.
Proof.
  induction 1 as [|d|d pumps rest Hp Hr [before IH]].
  - exists []. left. reflexivity.
  - exists []. right. exists d. reflexivity.
  - exists (EvCheckTerminated false
              :: EvWaitForFrontendMessage d true :: pumps ++ before).
    destruct IH as [IH|[d' IH]]; subst rest.
    + left. simpl. rewrite <- app_assoc. reflexivity.
    + right. exists d'. simpl. rewrite <- app_assoc. reflexivity.
Qed.

(** Past the assertion and the guard, the call is the loop between two
    resets of the flags. *)
Lemma runMessageLoopOnPause_enters fuel gid c w :
  channel_ c <> None ->
  running_nested_loop_ c = false ->
  runMessageLoopOnPause host fuel gid c w =
  let c0 := set_running_nested_loop true (set_terminated false c) in
  match pause_loop host fuel c0 w with
  | (t, Ret (c1, w1)) =>
      (t, Ret (set_running_nested_loop false (set_terminated false c1), w1))
  | (t, Crash f) => (t, Crash f)
  | (t, OutOfFuel) => (t, OutOfFuel)
  end.
Proof.
  intros Hch Hrun. unfold runMessageLoopOnPause.
  destruct (channel_ c) as [ch|] eqn:E; [|congruence].
  simpl IsEmpty. simpl negb. unfold assert. rewrite bind_ret, Hrun.
  rewrite bind_run. cbv zeta.
  destruct (pause_loop host fuel
              (set_running_nested_loop true (set_terminated false c)) w)
    as [t [[c1 w1]|f|]]; try reflexivity.
  simpl. rewrite app_nil_r. reflexivity.
Qed.
(** Fuel only bounds the run: a call that returns with some fuel returns
    the same with more. *)
Lemma pump_all_more_fuel fuel : forall more c w t c' w',
  pump_all host fuel c w = (t, Ret (c', w')) ->
  (fuel <= more)%nat ->
  pump_all host more c w = (t, Ret (c', w')).
Proof.
  induction fuel as [|fuel IH]; intros more c w t c' w' Hrun Hle.
  - discriminate.
  - destruct more as [|more]; [lia|].
    cbn [pump_all] in *. rewrite bind_run in *. unfold pump_once in *.
    destruct (PumpMessageLoop host (platform_ c) (env_ c) c w)
      as [[again c1] w1].
    destruct again; [|exact Hrun].
    destruct (pump_all host fuel c1 w1) as [t1 [[c2 w2]|f|]] eqn:Hin;
      cbn in Hrun; try discriminate.
    rewrite (IH more c1 w1 t1 c2 w2 Hin) by lia. exact Hrun.
Qed.

Lemma pause_loop_more_fuel fuel : forall more c w t c' w',
  pause_loop host fuel c w = (t, Ret (c', w')) ->
  (fuel <= more)%nat ->
  pause_loop host more c w = (t, Ret (c', w')).
Proof.
  induction fuel as [|fuel IH]; intros more c w t c' w' Hrun Hle.
  - discriminate.
  - destruct more as [|more]; [lia|].
    cbn [pause_loop] in *. rewrite bind_emit in *.
    destruct (terminated_ c); [exact Hrun|].
    destruct (channel_ c) as [ch|]; [|exact Hrun].
    rewrite bind_run in *. unfold ChannelImpl.waitForFrontendMessage in *.
    destruct (WaitForFrontendMessageWhilePaused host
                (ChannelImpl.delegate_ ch) c w) as [[again c1] w1].
    destruct again; [|exact Hrun].
    rewrite bind_run in *.
    destruct (pump_all host fuel c1 w1) as [tp [[c2 w2]|f|]] eqn:Hp;
      cbn in Hrun; try discriminate.
    rewrite (pump_all_more_fuel fuel more c1 w1 tp c2 w2 Hp) by lia.
    destruct (pause_loop host fuel c2 w2) as [tl [[c3 w3]|f|]] eqn:Hl;
      cbn in Hrun; try discriminate.
    rewrite (IH more c2 w2 tl c3 w3 Hl) by lia. exact Hrun.
Qed.

Lemma runMessageLoopOnPause_more_fuel fuel more gid c w t c' w' :
  runMessageLoopOnPause host fuel gid c w = (t, Ret (c', w')) ->
  (fuel <= more)%nat ->
  runMessageLoopOnPause host more gid c w = (t, Ret (c', w')).
Proof.
  unfold runMessageLoopOnPause. intros Hrun Hle.
  destruct (channel_ c) as [ch|]; [|exact Hrun].
  cbn [IsEmpty negb] in *. unfold assert in *. rewrite bind_ret in *.
  destruct (running_nested_loop_ c); [exact Hrun|].
  rewrite bind_run in *.
  destruct (pause_loop host fuel _ w) as [tl [[c1 w1]|f|]] eqn:Hl;
    cbn in Hrun; try discriminate.
  rewrite (pause_loop_more_fuel fuel more _ w tl c1 w1 Hl) by lia.
  exact Hrun.
Qed.

(** A front-end that has nothing more to say ends the loop at once,
    with any fuel but none. *)
Lemma pause_loop_frontend_gone fuel c ch w c1 w1 :
  terminated_ c = false ->
  channel_ c = Some ch ->
  WaitForFrontendMessageWhilePaused host (ChannelImpl.delegate_ ch) c w
  = (false, c1, w1) ->
  pause_loop host (S fuel) c w
  = ([EvCheckTerminated false;
      EvWaitForFrontendMessage (ChannelImpl.delegate_ ch) false],
     Ret (c1, w1)).
Proof.
  intros Hterm Hch Hwait. cbn [pause_loop].
  rewrite bind_emit, Hterm, Hch, bind_run.
  unfold ChannelImpl.waitForFrontendMessage. rewrite Hwait. reflexivity.
Qed.
End PauseEntry.

Section PauseRuns.
Context {World : Type} (host : Host World NodeInspectorClient.t).

Import NodeInspectorClient.

Lemma pump_all_drains fuel : forall c w t c' w',
  pump_all host fuel c w = (t, Ret (c', w')) -> drains host c w t c' w'.
Proof.
  induction fuel as [|fuel IH]; intros c w t c' w' Hrun.
  - discriminate.
  - cbn [pump_all] in Hrun. rewrite bind_run in Hrun.
    unfold pump_once in Hrun.
    destruct (PumpMessageLoop host (platform_ c) (env_ c) c w)
      as [[more c1] w1] eqn:Hpump.
    destruct more.
    + destruct (pump_all host fuel c1 w1) as [t1 [[c2 w2]|f|]] eqn:Hin;
        cbn in Hrun; try discriminate.
      inversion Hrun; subst. eapply drains_again; [exact Hpump|].
      apply IH. exact Hin.
    + cbn in Hrun. inversion Hrun; subst. apply drains_last. exact Hpump.
Qed.

Lemma drains_pump_all c w t c' w' :
  drains host c w t c' w' ->
  exists fuel, pump_all host fuel c w = (t, Ret (c', w')).
Proof.
  induction 1 as [c w c' w' Hpump | c w c1 w1 t c' w' Hpump _ [fuel IH]].
  - exists 1%nat. cbn [pump_all]. rewrite bind_run. unfold pump_once.
    rewrite Hpump. reflexivity.
  - exists (S fuel). cbn [pump_all]. rewrite bind_run. unfold pump_once.
    rewrite Hpump. cbn. rewrite IH. reflexivity.
Qed.

Lemma pause_loop_pauses fuel : forall c w t c' w',
  pause_loop host fuel c w = (t, Ret (c', w')) -> pauses host c w t c' w'.
Proof.
  induction fuel as [|fuel IH]; intros c w t c' w' Hrun.
  - discriminate.
  - cbn [pause_loop] in Hrun. rewrite bind_emit in Hrun.
    destruct (terminated_ c) eqn:Hterm.
    + cbn in Hrun. inversion Hrun; subst.
      apply pauses_terminated. exact Hterm.
    + destruct (channel_ c) as [ch|] eqn:Hch; [|discriminate].
      rewrite bind_run in Hrun.
      unfold ChannelImpl.waitForFrontendMessage in Hrun.
      destruct (WaitForFrontendMessageWhilePaused host
                  (ChannelImpl.delegate_ ch) c w) as [[more c1] w1] eqn:Hwait.
      destruct more.
      * rewrite bind_run in Hrun.
        destruct (pump_all host fuel c1 w1) as [tp [[c2 w2]|f|]] eqn:Hp;
          cbn in Hrun; try discriminate.
        destruct (pause_loop host fuel c2 w2) as [tl [[c3 w3]|f|]] eqn:Hl;
          cbn in Hrun; try discriminate.
        inversion Hrun; subst.
        eapply pauses_iteration; try eassumption.
        -- eapply pump_all_drains. exact Hp.
        -- apply IH. exact Hl.
      * cbn in Hrun. inversion Hrun; subst.
        eapply pauses_frontend_gone; eassumption.
Qed.

Lemma pauses_pause_loop c w t c' w' :
  pauses host c w t c' w' ->
  exists fuel, pause_loop host fuel c w = (t, Ret (c', w')).
Proof.
  induction 1
    as [c w Hterm
       | c w ch c1 w1 Hterm Hch Hwait
       | c w ch c1 w1 pumps c2 w2 rest c' w' Hterm Hch Hwait Hdrain _
           [fuel IH]].
  - exists 1%nat. cbn [pause_loop]. rewrite bind_emit, Hterm. reflexivity.
  - exists 1%nat. apply pause_loop_frontend_gone; assumption.
  - destruct (drains_pump_all _ _ _ _ _ Hdrain) as [fuelp Hp].
    exists (S (Nat.max fuelp fuel)). cbn [pause_loop].
    rewrite bind_emit, Hterm, Hch, bind_run.
    unfold ChannelImpl.waitForFrontendMessage. rewrite Hwait.
    rewrite bind_run.
    rewrite (pump_all_more_fuel host fuelp (Nat.max fuelp fuel)
               c1 w1 pumps c2 w2 Hp) by lia.
    rewrite (pause_loop_more_fuel host fuel (Nat.max fuelp fuel)
               c2 w2 rest c' w' IH) by lia.
    reflexivity.
Qed.

(** With any fuel but none, the loop checks the flag and, finding it
    clear and a channel attached, waits for the front-end. *)
Lemma pause_loop_first_wait fuel c ch w :
  terminated_ c = false ->
  channel_ c = Some ch ->
  exists rest,
    trace_of (pause_loop host (S fuel) c w)
    = EvCheckTerminated false
        :: EvWaitForFrontendMessage (ChannelImpl.delegate_ ch)
             (fst (fst (WaitForFrontendMessageWhilePaused host
                          (ChannelImpl.delegate_ ch) c w)))
        :: rest.
Proof.
  intros Hterm Hch. cbn [pause_loop]. rewrite bind_emit, Hterm, Hch.
  rewrite bind_run. unfold ChannelImpl.waitForFrontendMessage.
  destruct (WaitForFrontendMessageWhilePaused host
              (ChannelImpl.delegate_ ch) c w) as [[more c1] w1].
  destruct more; [|eexists; reflexivity].
  rewrite bind_run.
  destruct (pump_all host fuel c1 w1) as [tp [[c2 w2]|f|]];
    eexists; reflexivity.
Qed.
End PauseRuns.

(** C1.  A call of [runMessageLoopOnPause] with a channel attached and
    no loop running.  The first thing it does is read [terminated_], and
    it reads false, whatever the flag was before the call; with any fuel
    but none it does so, and then waits for the front-end.  Its events
    are always the beginning of iterations "check false, wait true, pump
    until false".  When it returns, the events are whole iterations
    closed by a check that read true or by a wait that answered false,
    both flags are false again, and the run is one of the loop as the
    specification tells it.  And every such run of the loop is returned,
    events and result, by the call with enough fuel. *)
Theorem runMessageLoopOnPause_iterations :
  forall (World : Type) (host : Host World NodeInspectorClient.t)
         (fuel : nat) (gid : Z) (c : NodeInspectorClient.t) (w : World),
    NodeInspectorClient.channel_ c <> None ->
    NodeInspectorClient.running_nested_loop_ c = false ->
    let entered := NodeInspectorClient.set_running_nested_loop true
                     (NodeInspectorClient.set_terminated false c) in
    let at_rest c1 := NodeInspectorClient.set_running_nested_loop false
                     (NodeInspectorClient.set_terminated false c1) in
    let r := NodeInspectorClient.runMessageLoopOnPause host fuel gid c w in
    (forall e, hd_error (trace_of r) = Some e -> e = EvCheckTerminated false)
    /\ (exists rest, pause_trace (trace_of r ++ rest))
    /\ (forall c' w',
          outcome_of r = Ret (c', w') ->
          pause_trace (trace_of r)
          /\ exits_by_flag_or_wait (trace_of r)
          /\ NodeInspectorClient.terminated_ c' = false
          /\ NodeInspectorClient.running_nested_loop_ c' = false
          /\ exists c1, pauses host entered w (trace_of r) c1 w'
                        /\ c' = at_rest c1)
    /\ (fuel <> 0%nat ->
        exists ch rest,
          NodeInspectorClient.channel_ c = Some ch
          /\ trace_of r
             = EvCheckTerminated false
                 :: EvWaitForFrontendMessage (ChannelImpl.delegate_ ch)
                      (fst (fst (WaitForFrontendMessageWhilePaused host
                                   (ChannelImpl.delegate_ ch) entered w)))
                 :: rest)
    /\ (forall t c1 w1,
          pauses host entered w t c1 w1 ->
          exists enough,
            forall more,
              (enough <= more)%nat ->
              NodeInspectorClient.runMessageLoopOnPause host more gid c w
              = (t, Ret (at_rest c1, w1))).
Proof.
  intros World host fuel gid c w Hch Hrun entered at_rest r. subst r.
  assert (Henter : forall n,
            NodeInspectorClient.runMessageLoopOnPause host n gid c w
            = match NodeInspectorClient.pause_loop host n entered w with
              | (t, Ret (c1, w1)) => (t, Ret (at_rest c1, w1))
              | (t, Crash f) => (t, Crash f)
              | (t, OutOfFuel) => (t, OutOfFuel)
              end).
  { intros n. apply runMessageLoopOnPause_enters; assumption. }
  rewrite Henter.
  pose proof (pause_loop_shape host fuel entered w) as Hshape.
  pose proof (pause_loop_head host fuel entered w) as Hhead.
  pose proof (pause_loop_pauses host fuel entered w) as Hpauses.
  assert (Hfirst : fuel <> 0%nat ->
            exists ch rest,
              NodeInspectorClient.channel_ c = Some ch
              /\ trace_of (NodeInspectorClient.pause_loop host fuel entered w)
                 = EvCheckTerminated false
                     :: EvWaitForFrontendMessage (ChannelImpl.delegate_ ch)
                          (fst (fst (WaitForFrontendMessageWhilePaused host
                                       (ChannelImpl.delegate_ ch) entered w)))
                     :: rest).
  { intros Hfuel. destruct fuel as [|n]; [congruence|].
    destruct (NodeInspectorClient.channel_ c) as [ch|] eqn:Ech;
      [|congruence].
    destruct (pause_loop_first_wait host n entered ch w) as [rest Hrest];
      [reflexivity | exact Ech |].
    exists ch, rest. split; [reflexivity | exact Hrest]. }
  assert (Henough : forall t c1 w1,
            pauses host entered w t c1 w1 ->
            exists enough,
              forall more,
                (enough <= more)%nat ->
                NodeInspectorClient.runMessageLoopOnPause host more gid c w
                = (t, Ret (at_rest c1, w1))).
  { intros t c1 w1 Hp.
    destruct (pauses_pause_loop host _ _ _ _ _ Hp) as [enough Hloop].
    exists enough. intros more Hle. rewrite Henter.
    rewrite (pause_loop_more_fuel host enough more entered w t c1 w1 Hloop Hle).
    reflexivity. }
  unfold outcome_of, trace_of in *.
  destruct (NodeInspectorClient.pause_loop host fuel entered w)
    as [t [[c1 w1]|f|]]; cbn [fst snd] in *.
  - split; [intros e He; apply Hhead; [reflexivity | exact He]|].
    split; [exists []; rewrite app_nil_r; exact Hshape|].
    split; [|split; [exact Hfirst | exact Henough]].
    intros c' w' Heq. inversion Heq; subst. clear Heq.
    split; [exact Hshape|]. split; [apply pause_trace_exit; exact Hshape|].
    split; [reflexivity|]. split; [reflexivity|].
    exists c1. split; [apply Hpauses; reflexivity | reflexivity].
  - split; [intros e He; apply Hhead; [reflexivity | exact He]|].
    split; [exact Hshape|].
    split; [intros c' w' Heq; discriminate|].
    split; [exact Hfirst | exact Henough].
  - split; [intros e He; apply Hhead; [reflexivity | exact He]|].
    split; [exact Hshape|].
    split; [intros c' w' Heq; discriminate|].
    split; [exact Hfirst | exact Henough].
Qed.

(** The run of the loop on a front-end that sends two messages and
    resumes, as the specification tells it. *)
Lemma resuming_run :
  pauses scripted_host paused_client resuming_world
    [EvCheckTerminated false;
     EvWaitForFrontendMessage sample_delegate true;
     EvPumpMessageLoop sample_platform true;
     EvPumpMessageLoop sample_platform true;
     EvPumpMessageLoop sample_platform false;
     EvCheckTerminated false;
     EvWaitForFrontendMessage sample_delegate true;
     EvPumpMessageLoop sample_platform false;
     EvCheckTerminated true]
    (NodeInspectorClient.set_terminated true paused_client) quiet_world.
Proof.
  eapply (pauses_iteration scripted_host _ _
            {| ChannelImpl.delegate_ := sample_delegate |} _ _
            [EvPumpMessageLoop sample_platform true;
             EvPumpMessageLoop sample_platform true;
             EvPumpMessageLoop sample_platform false]);
    [reflexivity | reflexivity | reflexivity | |].
  - eapply drains_again; [reflexivity|].
    eapply drains_again; [reflexivity|].
    eapply drains_last. reflexivity.
  - eapply (pauses_iteration scripted_host _ _
              {| ChannelImpl.delegate_ := sample_delegate |} _ _
              [EvPumpMessageLoop sample_platform false]);
      [reflexivity | reflexivity | reflexivity | |].
    + eapply drains_last. reflexivity.
    + apply pauses_terminated. reflexivity.
Qed.

(** The theorem at a client whose flag is stale, on that front-end: the
    call checks and waits, and with enough fuel returns that run. *)
Lemma runMessageLoopOnPause_iterations_witness :
  (exists ch rest,
     NodeInspectorClient.channel_
       (NodeInspectorClient.set_terminated true connected_client) = Some ch
     /\ trace_of
          (NodeInspectorClient.runMessageLoopOnPause scripted_host 5 1
             (NodeInspectorClient.set_terminated true connected_client)
             resuming_world)
        = EvCheckTerminated false
            :: EvWaitForFrontendMessage (ChannelImpl.delegate_ ch)
                 (fst (fst (WaitForFrontendMessageWhilePaused scripted_host
                              (ChannelImpl.delegate_ ch) paused_client
                              resuming_world)))
            :: rest)
  /\ exists enough,
       forall more,
         (enough <= more)%nat ->
         NodeInspectorClient.runMessageLoopOnPause scripted_host more 1
           (NodeInspectorClient.set_terminated true connected_client)
           resuming_world
         = ([EvCheckTerminated false;
             EvWaitForFrontendMessage sample_delegate true;
             EvPumpMessageLoop sample_platform true;
             EvPumpMessageLoop sample_platform true;
             EvPumpMessageLoop sample_platform false;
             EvCheckTerminated false;
             EvWaitForFrontendMessage sample_delegate true;
             EvPumpMessageLoop sample_platform false;
             EvCheckTerminated true],
            Ret (connected_client, quiet_world)).
Proof.
  pose proof (runMessageLoopOnPause_iterations ScriptedWorld scripted_host
                5 1
                (NodeInspectorClient.set_terminated true connected_client)
                resuming_world
                ltac:(simpl; discriminate) eq_refl) as H.
  cbv zeta in H. destruct H as (_ & _ & _ & Hfirst & Henough).
  split.
  - apply Hfirst. discriminate.
  - apply (Henough _ _ _ resuming_run).
Defined.

(** That run, event by event. *)
Example runMessageLoopOnPause_resuming :
  NodeInspectorClient.runMessageLoopOnPause scripted_host 5 1
    (NodeInspectorClient.set_terminated true connected_client)
    resuming_world
  = ([EvCheckTerminated false;
      EvWaitForFrontendMessage sample_delegate true;
      EvPumpMessageLoop sample_platform true;
      EvPumpMessageLoop sample_platform true;
      EvPumpMessageLoop sample_platform false;
      EvCheckTerminated false;
      EvWaitForFrontendMessage sample_delegate true;
      EvPumpMessageLoop sample_platform false;
      EvCheckTerminated true],
     Ret (connected_client, quiet_world)).
Proof. reflexivity. Qed.

(** C9.  With no channel attached, [runMessageLoopOnPause] fails its
    first assertion, before anything else happens and whatever the flags
    are; with a channel attached no assertion fails in the call. *)
Theorem runMessageLoopOnPause_needs_channel :
  forall (World : Type) (host : Host World NodeInspectorClient.t)
         (fuel : nat) (gid : Z) (c : NodeInspectorClient.t) (w : World),
    (NodeInspectorClient.channel_ c = None ->
     NodeInspectorClient.runMessageLoopOnPause host fuel gid c w
     = ([], Crash (AssertionFailed "channel_ != nullptr")))
    /\ (NodeInspectorClient.channel_ c <> None ->
        forall condition,
          outcome_of
            (NodeInspectorClient.runMessageLoopOnPause host fuel gid c w)
          <> Crash (AssertionFailed condition)).
Proof.
  intros World host fuel gid c w. split.
  - intros Hch. unfold NodeInspectorClient.runMessageLoopOnPause.
    rewrite Hch. reflexivity.
  - intros Hch condition.
    destruct (NodeInspectorClient.running_nested_loop_ c) eqn:Hrun.
    + unfold NodeInspectorClient.runMessageLoopOnPause.
      destruct (NodeInspectorClient.channel_ c); [|congruence].
      simpl. rewrite Hrun. simpl. discriminate.
    + rewrite (runMessageLoopOnPause_enters host fuel gid c w Hch Hrun).
      cbv zeta.
      pose proof (pause_loop_crash host fuel
                    (NodeInspectorClient.set_running_nested_loop true
                       (NodeInspectorClient.set_terminated false c)) w)
        as Hcrash.
      unfold outcome_of in *.
      destruct (NodeInspectorClient.pause_loop host fuel _ w)
        as [t [[c1 w1]|f|]]; simpl in *; try discriminate.
      intros Heq. inversion Heq; subst.
      specialize (Hcrash _ eq_refl). discriminate.
Qed.

(** The theorem at a new client, which has no channel, and at a
    connected one. *)
Lemma runMessageLoopOnPause_needs_channel_witness :
  NodeInspectorClient.runMessageLoopOnPause scripted_host 5 1
    (NodeInspectorClient.set_channel None connected_client) resuming_world
  = ([], Crash (AssertionFailed "channel_ != nullptr"))
  /\ forall condition,
       outcome_of
         (NodeInspectorClient.runMessageLoopOnPause scripted_host 5 1
            connected_client resuming_world)
       <> Crash (AssertionFailed condition).
Proof.
  split.
  - apply (runMessageLoopOnPause_needs_channel ScriptedWorld scripted_host
             5 1 (NodeInspectorClient.set_channel None connected_client)
             resuming_world).
    reflexivity.
  - apply (runMessageLoopOnPause_needs_channel ScriptedWorld scripted_host
             5 1 connected_client resuming_world).
    simpl. discriminate.
Defined.

(** The client that the counterexample of C2 is about arises in a run:
    the front-end goes away while the loop waits, the embedder
    disconnects, and the client is left looping without a channel until
    the wait returns. *)
Lemma disconnected_while_paused_arises :
  WaitForFrontendMessageWhilePaused scripted_host sample_delegate
    paused_client leaving_world
  = (true, disconnected_while_paused, quiet_world)
  /\ NodeInspectorClient.running_nested_loop_ disconnected_while_paused = true
  /\ NodeInspectorClient.channel_ disconnected_while_paused = None.
Proof. repeat split. Qed.

(** C2, as stated, fails: a pause request that arrives while the loop
    runs and the channel is already released does not return; it fails
    the assertion that precedes the guard. *)
Lemma runMessageLoopOnPause_reentrant_without_channel :
  NodeInspectorClient.running_nested_loop_ disconnected_while_paused = true
  /\ NodeInspectorClient.runMessageLoopOnPause scripted_host 5 1
       disconnected_while_paused quiet_world
     = ([], Crash (AssertionFailed "channel_ != nullptr"))
  /\ outcome_of
       (NodeInspectorClient.runMessageLoopOnPause scripted_host 5 1
          disconnected_while_paused quiet_world)
     <> Ret (disconnected_while_paused, quiet_world).
Proof. repeat split. simpl. discriminate. Qed.

(** C2, amended.  While the loop is running and a channel is attached, a
    further call of [runMessageLoopOnPause] returns at once: it makes no
    call (no wait, no pump), and the client, both flags included, and the
    world are as before. *)
Theorem runMessageLoopOnPause_reentrant :
  forall (World : Type) (host : Host World NodeInspectorClient.t)
         (fuel : nat) (gid : Z) (c : NodeInspectorClient.t) (w : World),
    NodeInspectorClient.running_nested_loop_ c = true ->
    NodeInspectorClient.channel_ c <> None ->
    NodeInspectorClient.runMessageLoopOnPause host fuel gid c w
    = ([], Ret (c, w)).
Proof.
  intros World host fuel gid c w Hrun Hch.
  unfold NodeInspectorClient.runMessageLoopOnPause.
  destruct (NodeInspectorClient.channel_ c); [|congruence].
  simpl. rewrite Hrun. reflexivity.
Qed.

Lemma runMessageLoopOnPause_reentrant_witness :
  NodeInspectorClient.runMessageLoopOnPause scripted_host 0 1
    paused_client resuming_world
  = ([], Ret (paused_client, resuming_world)).
Proof.
  apply (runMessageLoopOnPause_reentrant ScriptedWorld scripted_host 0 1
           paused_client resuming_world).
  - reflexivity.
  - simpl. discriminate.
Defined.

(** ** Connecting and disconnecting *)

Section Frontend.
Context {World : Type}.

Import NodeInspectorClient.

Lemma connectFrontend_run d c (w : World) :
  channel_ c = None ->
  connectFrontend d c w
  = ([EvInspectorConnect 1 d StringView_default],
     Ret (set_channel (Some {| ChannelImpl.delegate_ := d |}) c, w)).
Proof. intros H. unfold connectFrontend. rewrite H. reflexivity. Qed.

Lemma disconnectFrontend_run c (w : World) :
  disconnectFrontend c w
  = (EvQuitMessageLoopOnPause :: released c,
     Ret (set_channel None (set_terminated true c), w)).
Proof.
  unfold disconnectFrontend, released.
  destruct c as [e p tm rn [ch|]]; reflexivity.
Qed.

Lemma no_overlap_prefix before : forall attached after,
  no_overlap attached (before ++ after) = true ->
  no_overlap attached before = true.
Proof.
  induction before as [|[d|] before IH]; intros attached after H; simpl in *.
  - reflexivity.
  - apply andb_true_iff in H. destruct H as [Ha Hb].
    rewrite Ha. simpl. eapply IH. exact Hb.
  - eapply IH. exact H.
Qed.

Lemma open_connect_app l1 : forall current l2,
  open_connect current (l1 ++ l2)
  = open_connect (open_connect current l1) l2.
Proof.
  induction l1 as [|[d|] l1 IH]; intros current l2; simpl;
    [reflexivity | apply IH | apply IH].
Qed.

(** A connect is open after a sequence exactly when the sequence ends
    with it. *)
Lemma open_connect_ends calls :
  open_connect None calls <> None <->
  exists before d, calls = before ++ [CallConnect d].
Proof.
  destruct calls as [|call calls _] using rev_ind.
  - simpl. split; [congruence|].
    intros [before [d H]]. destruct before; discriminate.
  - rewrite open_connect_app. destruct call as [d|]; simpl.
    + split; [|discriminate]. intros _. exists calls, d. reflexivity.
    + split; [congruence|]. intros [before [d H]].
      apply app_inj_tail in H. destruct H as [_ H]. discriminate.
Qed.

Lemma frontend_calls_run calls : forall c (w : World),
  no_overlap (negb (IsEmpty (channel_ c))) calls = true ->
  exists t c',
    frontend_calls calls c w = (t, Ret (c', w))
    /\ channel_ c'
       = channel_for
           (open_connect (option_map ChannelImpl.delegate_ (channel_ c))
              calls).
Proof.
  induction calls as [|[d|] calls IH]; intros c w Hno.
  - exists [], c. split; [reflexivity|].
    simpl. destruct (channel_ c) as [[d]|]; reflexivity.
  - simpl in Hno. apply andb_true_iff in Hno. destruct Hno as [Hfree Hno].
    assert (Hch : channel_ c = None)
      by (destruct (channel_ c); [discriminate | reflexivity]).
    destruct (IH (set_channel (Some {| ChannelImpl.delegate_ := d |}) c) w
                Hno) as [t [c' [Hrun Hc']]].
    exists (EvInspectorConnect 1 d StringView_default :: t), c'.
    split.
    + cbn [frontend_calls frontend_call]. rewrite bind_run.
      rewrite (connectFrontend_run d c w Hch). rewrite Hrun. reflexivity.
    + exact Hc'.
  - simpl in Hno.
    destruct (IH (set_channel None (set_terminated true c)) w Hno)
      as [t [c' [Hrun Hc']]].
    exists ((EvQuitMessageLoopOnPause :: released c) ++ t), c'.
    split.
    + cbn [frontend_calls frontend_call]. rewrite bind_run.
      rewrite (disconnectFrontend_run c w). rewrite Hrun. reflexivity.
    + exact Hc'.
Qed.
End Frontend.

(** C5.  From a client without a channel, a sequence of connects and
    disconnects in which no connect meets an attached channel runs
    without a crash, and after each of its prefixes the channel is
    attached exactly when the prefix ends with a connect, to the delegate
    of that connect.  A disconnect sets [terminated_] and after that
    releases the channel, if there is one; the client it leaves has the
    flag set and no channel, and a pause loop that checks the flag there
    stops at that check, without touching the channel. *)
Theorem channel_attached_between_connect_and_disconnect :
  forall (World : Type) (host : Host World NodeInspectorClient.t)
         (before after : list FrontendCall)
         (c : NodeInspectorClient.t) (w : World),
    NodeInspectorClient.channel_ c = None ->
    no_overlap false (before ++ after) = true ->
    (exists t c',
       frontend_calls before c w = (t, Ret (c', w))
       /\ NodeInspectorClient.channel_ c'
          = channel_for (open_connect None before)
       /\ (NodeInspectorClient.channel_ c' <> None <->
           exists earlier d, before = earlier ++ [CallConnect d]))
    /\ (forall (c1 : NodeInspectorClient.t) (fuel : nat),
          let c2 := NodeInspectorClient.set_channel None
                      (NodeInspectorClient.set_terminated true c1) in
          NodeInspectorClient.disconnectFrontend c1 w
          = (EvQuitMessageLoopOnPause :: released c1, Ret (c2, w))
          /\ NodeInspectorClient.terminated_ c2 = true
          /\ NodeInspectorClient.channel_ c2 = None
          /\ NodeInspectorClient.pause_loop host (S fuel) c2 w
             = ([EvCheckTerminated true], Ret (c2, w))).
Proof.
  intros World host before after c w Hch Hno. split.
  - apply no_overlap_prefix in Hno.
    destruct (frontend_calls_run before c w) as [t [c' [Hrun Hc']]].
    { rewrite Hch. exact Hno. }
    rewrite Hch in Hc'. simpl in Hc'.
    exists t, c'. split; [exact Hrun|]. split; [exact Hc'|].
    rewrite Hc'. rewrite <- open_connect_ends.
    destruct (open_connect None before); simpl; split; congruence.
  - intros c1 fuel c2. split; [apply disconnectFrontend_run|].
    repeat split.
Qed.

Lemma channel_attached_between_connect_and_disconnect_witness :
  (exists t c',
     frontend_calls
       [CallConnect sample_delegate; CallDisconnect;
        CallConnect (delegate_handle 8)]
       (NodeInspectorClient.set_channel None connected_client) quiet_world
     = (t, Ret (c', quiet_world))
     /\ NodeInspectorClient.channel_ c'
        = channel_for
            (open_connect None
               [CallConnect sample_delegate; CallDisconnect;
                CallConnect (delegate_handle 8)])
     /\ (NodeInspectorClient.channel_ c' <> None <->
         exists earlier d,
           [CallConnect sample_delegate; CallDisconnect;
            CallConnect (delegate_handle 8)]
           = earlier ++ [CallConnect d]))
  /\ (forall (c1 : NodeInspectorClient.t) (fuel : nat),
        let c2 := NodeInspectorClient.set_channel None
                    (NodeInspectorClient.set_terminated true c1) in
        NodeInspectorClient.disconnectFrontend c1 quiet_world
        = (EvQuitMessageLoopOnPause :: released c1, Ret (c2, quiet_world))
        /\ NodeInspectorClient.terminated_ c2 = true
        /\ NodeInspectorClient.channel_ c2 = None
        /\ NodeInspectorClient.pause_loop scripted_host (S fuel) c2
             quiet_world
           = ([EvCheckTerminated true], Ret (c2, quiet_world))).
Proof.
  apply (channel_attached_between_connect_and_disconnect ScriptedWorld
           scripted_host
           [CallConnect sample_delegate; CallDisconnect;
            CallConnect (delegate_handle 8)]
           [CallDisconnect; CallDisconnect]
           (NodeInspectorClient.set_channel None connected_client)
           quiet_world).
  - reflexivity.
  - reflexivity.
Defined.

(** A disconnect made while the loop waits ends the loop at its next
    check; the released channel is not waited on again. *)
Example disconnect_ends_pause_loop :
  NodeInspectorClient.runMessageLoopOnPause scripted_host 5 1
    connected_client leaving_world
  = ([EvCheckTerminated false;
      EvWaitForFrontendMessage sample_delegate true;
      EvPumpMessageLoop sample_platform false;
      EvCheckTerminated true],
     Ret (NodeInspectorClient.set_channel None connected_client,
          quiet_world)).
Proof. reflexivity. Qed.

(** ** Starting the IO thread *)

Section IoThread.
Context {World : Type} (host : Host World NodeInspectorClient.t).

Import Agent.

Lemma StartIoThread_started wait_for_connect a (w : World) :
  io_ a <> None ->
  StartIoThread host wait_for_connect a w = ([], Ret ((true, a), w)).
Proof.
  intros Hio. unfold StartIoThread.
  destruct (io_ a); [reflexivity | congruence].
Qed.

Lemma StartIoThread_no_client wait_for_connect a (w : World) :
  io_ a = None ->
  client_ a = None ->
  StartIoThread host wait_for_connect a w
  = ([], Crash (AssertionFailed "client_ != nullptr")).
Proof.
  intros Hio Hcl. unfold StartIoThread. rewrite Hio, Hcl. reflexivity.
Qed.

(** The first start: the controller is built, the bind is tried once,
    and a failed bind releases the client. *)
Lemma StartIoThread_first wait_for_connect a c (w : World) :
  io_ a = None ->
  client_ a = Some c ->
  let a1 := set_io (Some (new_io a)) (set_enabled true a) in
  let answer := InspectorIo_Start host (new_io a) w in
  StartIoThread host wait_for_connect a w
  = if fst answer then
      ([EvIoNew (new_io a); EvIoStart true], Ret ((true, a1), snd answer))
    else
      (EvIoNew (new_io a) :: EvIoStart false
         :: released c ++ [EvInspectorRelease],
       Ret ((false, set_client None a1), snd answer)).
Proof.
  intros Hio Hcl a1 answer. subst a1 answer.
  unfold StartIoThread. rewrite Hio, Hcl. cbn [IsEmpty negb].
  unfold assert. rewrite bind_ret.
  replace (new_io (set_enabled true a)) with (new_io a) by reflexivity.
  rewrite bind_emit. rewrite bind_run. unfold ask.
  destruct (InspectorIo_Start host (new_io a) w) as [ok w1].
  destruct ok; cbn [negb fst snd]; [reflexivity|].
  rewrite bind_run. unfold release_client. cbn [client_ set_io set_enabled].
  rewrite Hcl. unfold NodeInspectorClient.destroy, released.
  destruct (NodeInspectorClient.channel_ c); reflexivity.
Qed.
End IoThread.

(** C3.  When a controller exists, [StartIoThread] returns true and does
    nothing: no controller is built, no bind is tried, the agent and the
    world are as before.  So two calls in a row build at most one
    controller and try at most one bind; the second call returns true;
    and when that one bind succeeded, the first call returned true as
    well. *)
Theorem StartIoThread_idempotent :
  forall (World : Type) (host : Host World NodeInspectorClient.t)
         (first second : bool) (a : Agent.t) (w : World),
    (Agent.io_ a <> None ->
     Agent.StartIoThread host first a w = ([], Ret ((true, a), w)))
    /\ let r := StartIoThread_twice host first second a w in
       (count_events is_bind (trace_of r) <= 1)%nat
       /\ (count_events is_io_new (trace_of r) <= 1)%nat
       /\ forall r1 r2 a' w',
            outcome_of r = Ret ((r1, r2, a'), w') ->
            r2 = true
            /\ (In (EvIoStart true) (trace_of r) -> r1 = true /\ r2 = true)
            /\ (r1 = false -> In (EvIoStart false) (trace_of r)).
Proof.
  intros World host first second a w.
  split; [apply StartIoThread_started|].
  unfold StartIoThread_twice. rewrite bind_run.
  destruct (Agent.io_ a) as [io|] eqn:Hio.
  - rewrite (StartIoThread_started host first a w) by congruence.
    rewrite bind_run.
    rewrite (StartIoThread_started host second a w) by congruence.
    cbn. split; [lia|]. split; [lia|].
    intros r1 r2 a' w' H. inversion H; subst.
    split; [reflexivity|]. split; [intros []|discriminate].
  - destruct (Agent.client_ a) as [c|] eqn:Hcl.
    + rewrite (StartIoThread_first host first a c w Hio Hcl). cbv zeta.
      destruct (InspectorIo_Start host (Agent.new_io a) w) as [ok w1].
      destruct ok; cbn [fst snd]; rewrite bind_run;
        rewrite StartIoThread_started by (cbn; congruence).
      * cbn. split; [lia|]. split; [lia|].
        intros r1 r2 a' w' H. inversion H; subst.
        split; [reflexivity|]. split; [intros _; split; reflexivity|].
        discriminate.
      * unfold count_events, trace_of, outcome_of, released.
        destruct (NodeInspectorClient.channel_ c); cbn.
        -- split; [lia|]. split; [lia|].
           intros r1 r2 a' w' H. inversion H; subst.
           split; [reflexivity|]. split; [|intros _; right; left; reflexivity].
           intros [Hin|[Hin|[Hin|[Hin|[]]]]]; discriminate.
        -- split; [lia|]. split; [lia|].
           intros r1 r2 a' w' H. inversion H; subst.
           split; [reflexivity|]. split; [|intros _; right; left; reflexivity].
           intros [Hin|[Hin|[Hin|[]]]]; discriminate.
    + rewrite (StartIoThread_no_client host first a w Hio Hcl).
      cbn. split; [lia|]. split; [lia|]. intros; discriminate.
Qed.

Lemma StartIoThread_idempotent_witness :
  Agent.StartIoThread scripted_host false started_agent binding_world
  = ([], Ret ((true, started_agent), binding_world))
  /\ let r := StartIoThread_twice scripted_host true false
                (Agent.set_io None started_agent) binding_world in
     (count_events is_bind (trace_of r) <= 1)%nat
     /\ (count_events is_io_new (trace_of r) <= 1)%nat
     /\ forall r1 r2 a' w',
          outcome_of r = Ret ((r1, r2, a'), w') ->
          r2 = true
          /\ (In (EvIoStart true) (trace_of r) -> r1 = true /\ r2 = true)
          /\ (r1 = false -> In (EvIoStart false) (trace_of r)).
Proof.
  split.
  - apply (StartIoThread_idempotent ScriptedWorld scripted_host false false
             started_agent binding_world).
    simpl. discriminate.
  - apply (StartIoThread_idempotent ScriptedWorld scripted_host true false
             (Agent.set_io None started_agent) binding_world).
Defined.

(** Two starts in a row on the scripted transport: one controller, one
    bind, true twice. *)
Example StartIoThread_twice_binds_once :
  StartIoThread_twice scripted_host true false
    (Agent.set_io None started_agent) binding_world
  = ([EvIoNew sample_io; EvIoStart true],
     Ret ((true, true, started_agent), quiet_world)).
Proof. reflexivity. Qed.

(** [Start] on a new agent, with a bind that succeeds and with one that
    fails. *)
Example Start_binding :
  outcome_of (Agent.Start scripted_host sample_env sample_platform None
                Agent.new binding_world)
  = Ret ((true, started_agent), quiet_world).
Proof. reflexivity. Qed.

Example Start_not_binding :
  outcome_of (Agent.Start scripted_host sample_env sample_platform None
                Agent.new quiet_world)
  = Ret ((false, unbound_agent), quiet_world).
Proof. reflexivity. Qed.

(** C4.  On an agent with a client and no controller, a bind that fails
    makes [StartIoThread] return false and leaves the agent without a
    client; [Dispatch] on that agent fails its assertion. *)
Theorem StartIoThread_bind_failure :
  forall (World : Type) (host : Host World NodeInspectorClient.t)
         (wait_for_connect : bool) (a : Agent.t) (w : World),
    Agent.io_ a = None ->
    Agent.client_ a <> None ->
    fst (InspectorIo_Start host (Agent.new_io a) w) = false ->
    exists t a' w',
      Agent.StartIoThread host wait_for_connect a w
      = (t, Ret ((false, a'), w'))
      /\ count_events is_bind t = 1%nat
      /\ Agent.client_ a' = None
      /\ forall message (w'' : World),
           Agent.Dispatch message a' w''
           = ([], Crash (AssertionFailed "client_ != nullptr")).
Proof.
  intros World host wait_for_connect a w Hio Hcl Hfail.
  destruct (Agent.client_ a) as [c|] eqn:Hc; [clear Hcl | congruence].
  rewrite (StartIoThread_first host wait_for_connect a c w Hio Hc).
  cbv zeta. rewrite Hfail.
  eexists _, _, _. split; [reflexivity|]. split.
  - unfold count_events, released.
    destruct (NodeInspectorClient.channel_ c); reflexivity.
  - split; [reflexivity|]. intros message w''. reflexivity.
Qed.

Lemma StartIoThread_bind_failure_witness :
  exists t a' w',
    Agent.StartIoThread scripted_host true
      (Agent.set_io None started_agent) quiet_world
    = (t, Ret ((false, a'), w'))
    /\ count_events is_bind t = 1%nat
    /\ Agent.client_ a' = None
    /\ forall message (w'' : ScriptedWorld),
         Agent.Dispatch message a' w''
         = ([], Crash (AssertionFailed "client_ != nullptr")).
Proof.
  apply (StartIoThread_bind_failure ScriptedWorld scripted_host true
           (Agent.set_io None started_agent) quiet_world).
  - reflexivity.
  - simpl. discriminate.
  - reflexivity.
Defined.

(** ** Fatal exceptions *)

Lemma bind_ret_inv {World A B : Type} (m : M World A) (k : A -> M World B)
  w t b w' :
  bind m k w = (t, Ret (b, w')) ->
  exists t1 a w1 t2,
    m w = (t1, Ret (a, w1)) /\ k a w1 = (t2, Ret (b, w')) /\ t = t1 ++ t2.
Proof.
  rewrite bind_run. destruct (m w) as [t1 [[a w1]|f|]]; try discriminate.
  intros H. exists t1, a, w1, (fst (k a w1)).
  destruct (k a w1) as [t2 o]. simpl in *. inversion H; subst.
  repeat split.
Qed.

Section Fatal.
Context {World : Type} (host : Host World NodeInspectorClient.t).

Import Agent.

Lemma StartIoThread_true wait_for_connect a (w : World) t a' w' :
  StartIoThread host wait_for_connect a w = (t, Ret ((true, a'), w')) ->
  client_ a' = client_ a /\ io_ a' <> None.
Proof.
  destruct (io_ a) as [io|] eqn:Hio.
  - rewrite StartIoThread_started by congruence.
    intros H. inversion H; subst. split; [reflexivity | congruence].
  - destruct (client_ a) as [c|] eqn:Hcl.
    + rewrite (StartIoThread_first host wait_for_connect a c w Hio Hcl).
      cbv zeta. destruct (fst (InspectorIo_Start host (new_io a) w)).
      * intros H. inversion H; subst. cbn. split; [exact Hcl|discriminate].
      * intros H. inversion H.
    + rewrite (StartIoThread_no_client host wait_for_connect a w Hio Hcl).
      discriminate.
Qed.

(** A [Start] that returns true leaves a client and a controller. *)
Lemma Start_true env platform path a0 (w0 : World) t a w :
  Start host env platform path a0 w0 = (t, Ret ((true, a), w)) ->
  exists c io, client_ a = Some c /\ io_ a = Some io.
Proof.
  unfold Start. intros H.
  repeat (apply bind_ret_inv in H;
          destruct H as (? & ? & ? & ? & _ & H & _)).
  apply StartIoThread_true in H. destruct H as [Hcl Hio].
  cbn in Hcl. destruct (io_ a) as [io|]; [|congruence].
  eexists _, io. split; [exact Hcl | reflexivity].
Qed.

Lemma FatalException_started error message a c io (w : World) :
  client_ a = Some c ->
  io_ a = Some io ->
  FatalException host error message a w
  = ([EvExceptionThrown NodeInspectorClient.DETAILS error
        (ToProtocolString (Get message))
        (ToProtocolString (GetScriptResourceName message))
        (FromMaybe (GetLineNumber message) 0)
        (FromMaybe (GetStartColumn message) 0)
        (GetStackTrace message)
        (NodeInspectorClient.fatal_script_id message);
      EvContextDestroyed;
      EvIoWaitForDisconnect],
     Ret (tt, InspectorIo_WaitForDisconnect host io w)).
Proof.
  intros Hcl Hio.
  unfold FatalException, IsStarted, WaitForDisconnect.
  rewrite Hcl, Hio. reflexivity.
Qed.
End Fatal.

Section FatalWait.
Context {World : Type} (host : Host World NodeInspectorClient.t).

Import Agent.

Lemma WaitForDisconnect_run a c (w : World) :
  client_ a = Some c ->
  WaitForDisconnect host a w
  = (EvContextDestroyed
       :: match io_ a with
          | Some _ => [EvIoWaitForDisconnect]
          | None => []
          end,
     Ret (tt, match io_ a with
              | Some io => InspectorIo_WaitForDisconnect host io w
              | None => w
              end)).
Proof.
  intros Hcl. unfold WaitForDisconnect. rewrite Hcl.
  destruct (io_ a); reflexivity.
Qed.
End FatalWait.

(** C6, as stated, fails: a [Start] that returned true, a [Stop] and a
    [StartIoThread] whose bind fails leave an agent on which
    [Agent::FatalException] reports nothing and waits for nothing. *)
Lemma FatalException_after_failed_restart :
  outcome_of (Agent.Start scripted_host sample_env sample_platform None
                Agent.new binding_world)
  = Ret ((true, started_agent), quiet_world)
  /\ Agent.Stop started_agent quiet_world
     = ([EvIoStop], Ret (stopped_agent, quiet_world))
  /\ Agent.StartIoThread scripted_host false stopped_agent quiet_world
     = ([EvIoNew sample_io; EvIoStart false; EvInspectorRelease],
        Ret ((false, unbound_agent), quiet_world))
  /\ Agent.FatalException scripted_host (Some (VOther 1)) sample_message
       unbound_agent quiet_world
     = ([], Ret (tt, quiet_world)).
Proof. repeat split. Qed.

(** C6, amended.  [Agent::FatalException] does nothing on an agent that
    holds no client, a new agent in particular: no call is made and the
    world is as before.  On every agent that holds a client, with or
    without a channel, it makes the client's one [exceptionThrown] call
    and then runs [WaitForDisconnect] once, which tears the context down
    and waits on the transport exactly when a controller exists.  The
    agent that a [Start] returning true leaves holds a client and a
    controller. *)
Theorem FatalException_needs_client :
  forall (World : Type) (host : Host World NodeInspectorClient.t)
         (error : Local Value) (message : Message) (a : Agent.t)
         (w : World),
    Agent.FatalException host error message Agent.new w = ([], Ret (tt, w))
    /\ (Agent.client_ a = None ->
        Agent.FatalException host error message a w = ([], Ret (tt, w)))
    /\ (forall c,
          Agent.client_ a = Some c ->
          exists thrown,
            NodeInspectorClient.FatalException error message c w
            = ([thrown], Ret (tt, w))
            /\ is_exception_thrown thrown = true
            /\ Agent.FatalException host error message a w
               = (thrown :: trace_of (Agent.WaitForDisconnect host a w),
                  outcome_of (Agent.WaitForDisconnect host a w))
            /\ Agent.WaitForDisconnect host a w
               = (EvContextDestroyed
                    :: match Agent.io_ a with
                       | Some _ => [EvIoWaitForDisconnect]
                       | None => []
                       end,
                  Ret (tt, match Agent.io_ a with
                           | Some io =>
                               InspectorIo_WaitForDisconnect host io w
                           | None => w
                           end)))
    /\ (forall env platform path a0 (w0 : World) t0,
          Agent.Start host env platform path a0 w0 = (t0, Ret ((true, a), w)) ->
          Agent.client_ a <> None /\ Agent.io_ a <> None).
Proof.
  intros World host error message a w.
  split; [reflexivity|]. split; [|split].
  - intros Hcl. unfold Agent.FatalException, Agent.IsStarted.
    rewrite Hcl. reflexivity.
  - intros c Hcl. eexists. split; [reflexivity|]. split; [reflexivity|].
    rewrite (WaitForDisconnect_run host a c w Hcl). split; [|reflexivity].
    unfold Agent.FatalException, Agent.IsStarted. rewrite Hcl.
    cbn [IsEmpty negb]. unfold NodeInspectorClient.FatalException.
    cbv zeta. rewrite bind_emit.
    rewrite (WaitForDisconnect_run host a c w Hcl). reflexivity.
  - intros env platform path a0 w0 t0 Hstart.
    destruct (Start_true host env platform path a0 w0 t0 a w Hstart)
      as [c [io [Hcl Hio]]].
    split; congruence.
Qed.

Lemma FatalException_needs_client_witness :
  Agent.FatalException scripted_host (Some (VOther 1)) sample_message
    unbound_agent quiet_world
  = ([], Ret (tt, quiet_world))
  /\ (exists thrown,
        NodeInspectorClient.FatalException (Some (VOther 1)) sample_message
          connected_client quiet_world
        = ([thrown], Ret (tt, quiet_world))
        /\ is_exception_thrown thrown = true
        /\ Agent.FatalException scripted_host (Some (VOther 1))
             sample_message
             (Agent.set_client (Some connected_client) started_agent)
             quiet_world
           = (thrown
                :: trace_of
                     (Agent.WaitForDisconnect scripted_host
                        (Agent.set_client (Some connected_client)
                           started_agent) quiet_world),
              outcome_of
                (Agent.WaitForDisconnect scripted_host
                   (Agent.set_client (Some connected_client) started_agent)
                   quiet_world))
        /\ Agent.WaitForDisconnect scripted_host
             (Agent.set_client (Some connected_client) started_agent)
             quiet_world
           = ([EvContextDestroyed; EvIoWaitForDisconnect],
              Ret (tt, quiet_world)))
  /\ Agent.client_ started_agent <> None
  /\ Agent.io_ started_agent <> None.
Proof.
  split; [|split].
  - apply (FatalException_needs_client ScriptedWorld scripted_host
             (Some (VOther 1)) sample_message unbound_agent quiet_world).
    reflexivity.
  - apply (proj1 (proj2 (proj2 (FatalException_needs_client ScriptedWorld
                                  scripted_host (Some (VOther 1))
                                  sample_message
                                  (Agent.set_client (Some connected_client)
                                     started_agent)
                                  quiet_world)))
             connected_client).
    reflexivity.
  - apply (proj2 (proj2 (proj2 (FatalException_needs_client ScriptedWorld
                                  scripted_host (Some (VOther 1))
                                  sample_message started_agent quiet_world)))
             sample_env sample_platform None Agent.new binding_world
             (trace_of (Agent.Start scripted_host sample_env sample_platform
                          None Agent.new binding_world))).
    reflexivity.
Defined.

(** A started agent after a [Stop]: the exception is reported and the
    context torn down, and nothing waits. *)
Example FatalException_after_stop :
  Agent.FatalException scripted_host (Some (VOther 1)) sample_message
    stopped_agent quiet_world
  = ([EvExceptionThrown NodeInspectorClient.DETAILS (Some (VOther 1))
        (StringView16 [111; 111; 112; 115])
        (StringView16 [97; 46; 106; 115])
        3 0 (GetStackTrace sample_message) 0;
      EvContextDestroyed],
     Ret (tt, quiet_world)).
Proof. reflexivity. Qed.

Lemma to_int_in_range (value : Z) :
  INT_MIN <= value <= INT_MAX -> to_int value = value.
Proof.
  unfold to_int, INT_MIN, INT_MAX.
  change (2 ^ 31) with 2147483648. change (2 ^ 32) with 4294967296.
  intros H. rewrite Z.mod_small; lia.
Qed.

Lemma to_int_bounds (value : Z) : INT_MIN <= to_int value <= INT_MAX.
Proof.
  unfold to_int, INT_MIN, INT_MAX.
  change (2 ^ 31) with 2147483648. change (2 ^ 32) with 4294967296.
  pose proof (Z.mod_pos_bound (value + 2147483648) 4294967296). lia.
Qed.

(** C7, as stated, fails on a script id that does not fit an [int]: the
    top frame's script id, 17, is not the message's, 2^32 + 17, and yet 0
    is passed, not the message's script id. *)
Lemma FatalException_script_id_wide :
  ~ top_frame_is_message_script wide_message
  /\ thrown_script_ids
       (trace_of (NodeInspectorClient.FatalException (Some (VOther 1))
                    wide_message new_client quiet_world))
     = [0]
  /\ [0] <> [ScriptID wide_message].
Proof.
  split; [|split].
  - intros (st & top & below & Heq & Hfr & Hsame).
    cbn in Heq. inversion Heq; subst. cbn in Hfr. inversion Hfr; subst.
    cbn in Hsame. discriminate.
  - reflexivity.
  - cbn. discriminate.
Qed.

(** C7, amended.  [NodeInspectorClient::FatalException] makes one
    [exceptionThrown] call.  The script id it passes is 0 when the
    message has a stack trace with at least one frame and the top
    frame's script id equals the message's script id as line 220 holds
    it, narrowed to an [int]; in every other case it is that narrowed
    script id.  For a script id that fits an [int] the narrowed id is
    the message's own, and the condition is the one on the message's
    own script id. *)
Theorem FatalException_script_id :
  forall (World : Type) (error : Local Value) (message : Message)
         (c : NodeInspectorClient.t) (w : World),
    count_events is_exception_thrown
      (trace_of (NodeInspectorClient.FatalException error message c w))
    = 1%nat
    /\ (top_frame_is_narrowed_script message ->
        thrown_script_ids
          (trace_of (NodeInspectorClient.FatalException error message c w))
        = [0])
    /\ (~ top_frame_is_narrowed_script message ->
        thrown_script_ids
          (trace_of (NodeInspectorClient.FatalException error message c w))
        = [to_int (ScriptID message)])
    /\ (INT_MIN <= ScriptID message <= INT_MAX ->
        to_int (ScriptID message) = ScriptID message
        /\ (top_frame_is_narrowed_script message
            <-> top_frame_is_message_script message)).
Proof.
  intros World error message c w.
  unfold NodeInspectorClient.FatalException, emit, trace_of,
    thrown_script_ids, count_events. cbn.
  split; [reflexivity|].
  unfold NodeInspectorClient.fatal_script_id, top_frame_is_narrowed_script,
    top_frame_is_message_script, GetFrameCount, GetFrame.
  repeat split.
  - intros (st & top & below & Heq & Hfr & Hsame).
    rewrite Heq. destruct st as [fs]. cbn in Hfr. subst fs. cbn.
    rewrite Hsame, Z.eqb_refl. reflexivity.
  - intros Hnot.
    destruct (GetStackTrace message) as [[fs]|]; [|reflexivity].
    destruct fs as [|top below]; [reflexivity|]. cbn.
    destruct (to_int (ScriptID message) =? GetScriptId top) eqn:Hid;
      [|reflexivity].
    exfalso. apply Hnot. apply Z.eqb_eq in Hid.
    exists {| frames := top :: below |}, top, below.
    repeat split. symmetry. exact Hid.
  - apply to_int_in_range. assumption.
  - rewrite to_int_in_range by assumption. exact (fun H => H).
  - rewrite to_int_in_range by assumption. exact (fun H => H).
Qed.

Lemma FatalException_script_id_witness :
  thrown_script_ids
    (trace_of (NodeInspectorClient.FatalException (Some (VOther 1))
                 sample_message new_client quiet_world))
  = [0]
  /\ thrown_script_ids
       (trace_of (NodeInspectorClient.FatalException (Some (VOther 1))
                    {| ScriptID := 2 ^ 32 + 17;
                       GetStackTrace :=
                         Some {| frames := [{| GetScriptId := 4 |};
                                            {| GetScriptId := 17 |}] |};
                       Get := None; GetScriptResourceName := None;
                       GetLineNumber := None; GetStartColumn := None |}
                    new_client quiet_world))
     = [17]
  /\ to_int (ScriptID sample_message) = ScriptID sample_message.
Proof.
  split; [|split].
  - apply (FatalException_script_id ScriptedWorld (Some (VOther 1))
             sample_message new_client quiet_world).
    exists {| frames := [{| GetScriptId := 17 |}; {| GetScriptId := 4 |}] |},
      {| GetScriptId := 17 |}, [{| GetScriptId := 4 |}].
    repeat split.
  - apply (FatalException_script_id ScriptedWorld (Some (VOther 1))
             {| ScriptID := 2 ^ 32 + 17;
                GetStackTrace :=
                  Some {| frames := [{| GetScriptId := 4 |};
                                     {| GetScriptId := 17 |}] |};
                Get := None; GetScriptResourceName := None;
                GetLineNumber := None; GetStartColumn := None |}
             new_client quiet_world).
    intros (st & top & below & Heq & Hfr & Hsame).
    cbn in Heq. inversion Heq; subst. cbn in Hfr. inversion Hfr; subst.
    cbn in Hsame. discriminate.
  - apply (FatalException_script_id ScriptedWorld (Some (VOther 1))
             sample_message new_client quiet_world).
    unfold INT_MIN, INT_MAX. cbn. lia.
Defined.

(** The report of the sample message, argument by argument. *)
Example FatalException_report :
  NodeInspectorClient.FatalException (Some (VOther 1)) sample_message
    new_client quiet_world
  = ([EvExceptionThrown
        (StringView8 [85; 110; 99; 97; 117; 103; 104; 116])
        (Some (VOther 1))
        (StringView16 [111; 111; 112; 115])
        (StringView16 [97; 46; 106; 115])
        3 0
        (GetStackTrace sample_message)
        0],
     Ret (tt, quiet_world)).
Proof. reflexivity. Qed.

(** ** Pausing *)

(** C10.  With a client and no channel, [PauseOnNextJavascriptStatement]
    returns without a call to any collaborator and without a crash, and
    the world is as before.  Without a client, [Dispatch] and
    [Disconnect] fail their assertion and [Connect] dereferences the null
    client: each of the three ends the run. *)
Theorem PauseOnNextJavascriptStatement_without_channel :
  forall (World : Type) (host : Host World NodeInspectorClient.t)
         (reason : string) (a : Agent.t) (c : NodeInspectorClient.t)
         (w : World),
    Agent.client_ a = Some c ->
    NodeInspectorClient.channel_ c = None ->
    Agent.PauseOnNextJavascriptStatement host reason a w = ([], Ret (tt, w))
    /\ forall (a' : Agent.t) message delegate,
         Agent.client_ a' = None ->
         Agent.Dispatch message a' w
         = ([], Crash (AssertionFailed "client_ != nullptr"))
         /\ Agent.Disconnect a' w
            = ([], Crash (AssertionFailed "client_ != nullptr"))
         /\ Agent.Connect delegate a' w
            = ([], Crash (NullDereference "client_")).
Proof.
  intros World host reason a c w Hcl Hch. split.
  - unfold Agent.PauseOnNextJavascriptStatement, NodeInspectorClient.channel.
    rewrite Hcl, Hch. reflexivity.
  - intros a' message delegate Hnone.
    unfold Agent.Dispatch, Agent.Disconnect, Agent.Connect.
    cbn [Agent.client_ Agent.set_enabled]. rewrite Hnone.
    repeat split.
Qed.

Lemma PauseOnNextJavascriptStatement_without_channel_witness :
  Agent.PauseOnNextJavascriptStatement scripted_host "Break on start"
    started_agent quiet_world
  = ([], Ret (tt, quiet_world))
  /\ forall (a' : Agent.t) message delegate,
       Agent.client_ a' = None ->
       Agent.Dispatch message a' quiet_world
       = ([], Crash (AssertionFailed "client_ != nullptr"))
       /\ Agent.Disconnect a' quiet_world
          = ([], Crash (AssertionFailed "client_ != nullptr"))
       /\ Agent.Connect delegate a' quiet_world
          = ([], Crash (NullDereference "client_")).
Proof.
  apply (PauseOnNextJavascriptStatement_without_channel ScriptedWorld
           scripted_host "Break on start" started_agent new_client
           quiet_world).
  - reflexivity.
  - reflexivity.
Defined.

(** ** The debugger-entry primitive *)

Lemma collect_from_zero (args : list Value) :
  flat_map (fun i => match nth_error args i with
                     | Some v => [v]
                     | None => []
                     end)
           (seq 0 (List.length args))
  = args.
Proof.
  induction args as [|v args IH].
  - reflexivity.
  - cbn [List.length seq flat_map nth_error app].
    f_equal. rewrite <- seq_shift, flat_map_concat_map, map_map.
    rewrite <- flat_map_concat_map. exact IH.
Qed.

(** The loop of lines 62-64 copies the arguments after the first. *)
Lemma collect_call_args_tail (callee : Value) (rest : list Value) :
  collect_call_args (callee :: rest) = rest.
Proof.
  unfold collect_call_args. cbn [List.length].
  rewrite Nat.sub_succ, Nat.sub_0_r.
  rewrite <- seq_shift, flat_map_concat_map, map_map.
  rewrite <- flat_map_concat_map. apply collect_from_zero.
Qed.

(** C8, as stated, fails: on the agent that a [Start] with a failed bind
    leaves, which has installed the primitive and released its client,
    a call with a function as first argument dereferences the null
    client while it requests the pause; the function is never called. *)
Lemma CallAndPauseOnStart_without_client :
  outcome_of (Agent.Start scripted_host sample_env sample_platform None
                Agent.new quiet_world)
  = Ret ((false, unbound_agent), quiet_world)
  /\ In (EvInstallGlobal "callAndPauseOnStart")
        (trace_of (Agent.Start scripted_host sample_env sample_platform None
                     Agent.new quiet_world))
  /\ CallAndPauseOnStart scripted_host unbound_agent
       [VFunction 1; VOther 2; VOther 3] returning_world
     = ([], Crash (NullDereference "client_")).
Proof.
  split; [reflexivity|]. split; [|reflexivity].
  cbn. right. left. reflexivity.
Qed.

(** C8, amended.  On an agent that holds a client, a call whose first
    argument is a function first passes "Break on start" to
    [PauseOnNextJavascriptStatement], which schedules the pause on the
    channel when one is attached; then it calls the function with the
    arguments after the first, in their order; and the return value is
    the function's result when there is one, and is not set otherwise. *)
Theorem CallAndPauseOnStart_pauses_then_calls :
  forall (World : Type) (host : Host World NodeInspectorClient.t)
         (agent : Agent.t) (c : NodeInspectorClient.t)
         (f : nat) (rest : list Value) (w : World),
    Agent.client_ agent = Some c ->
    let pause :=
      trace_of (Agent.PauseOnNextJavascriptStatement host "Break on start"
                  agent w) in
    let answer := Function_Call host (VFunction f) rest w in
    CallAndPauseOnStart host agent (VFunction f :: rest) w
    = (pause ++ [EvFunctionCall (VFunction f) rest],
       Ret (fst answer, snd answer))
    /\ pause
       = match NodeInspectorClient.channel_ c with
         | Some _ =>
             [EvSchedulePauseOnNextStatement
                (Utf8ToStringView host "Break on start")
                (Utf8ToStringView host "Break on start")]
         | None => []
         end.
Proof.
  intros World host agent c f rest w Hcl pause answer. subst pause answer.
  unfold CallAndPauseOnStart.
  rewrite collect_call_args_tail.
  cbn [List.length IsFunction]. unfold assert.
  replace (1 <=? Z.of_nat (S (List.length rest))) with true
    by (symmetry; apply Z.leb_le; lia).
  rewrite !bind_ret.
  unfold Agent.PauseOnNextJavascriptStatement, NodeInspectorClient.channel.
  rewrite Hcl.
  destruct (NodeInspectorClient.channel_ c) as [ch|].
  - unfold ChannelImpl.schedulePauseOnNextStatement. rewrite bind_emit.
    split; [|reflexivity].
    rewrite bind_run. unfold ask.
    destruct (Function_Call host (VFunction f) rest w) as [[v|] w1];
      reflexivity.
  - rewrite bind_ret. split; [|reflexivity].
    rewrite bind_run. unfold ask.
    destruct (Function_Call host (VFunction f) rest w) as [[v|] w1];
      reflexivity.
Qed.

Lemma CallAndPauseOnStart_pauses_then_calls_witness :
  CallAndPauseOnStart scripted_host
    (Agent.set_client (Some connected_client) started_agent)
    [VFunction 1; VOther 2; VOther 3] returning_world
  = ([EvSchedulePauseOnNextStatement
        (Utf8ToStringView scripted_host "Break on start")
        (Utf8ToStringView scripted_host "Break on start");
      EvFunctionCall (VFunction 1) [VOther 2; VOther 3]],
     Ret (Some (VOther 42), quiet_world)).
Proof.
  apply (CallAndPauseOnStart_pauses_then_calls ScriptedWorld scripted_host
           (Agent.set_client (Some connected_client) started_agent)
           connected_client 1%nat [VOther 2; VOther 3] returning_world).
  reflexivity.
Defined.

(** With no front-end connected the pause is not scheduled; a function
    that returns nothing leaves the return value unset. *)
Example CallAndPauseOnStart_no_frontend :
  CallAndPauseOnStart scripted_host started_agent
    [VFunction 1; VOther 2] quiet_world
  = ([EvFunctionCall (VFunction 1) [VOther 2]], Ret (None, quiet_world)).
Proof. reflexivity. Qed.

(** ** Further properties of the code *)

(** X1.  The loop of lines 61-64 copies every argument but the first, in
    order, whatever the number of arguments; from no argument it copies
    nothing. *)
Theorem collect_call_args_is_tail :
  forall args : list Value, collect_call_args args = tl args.
Proof.
  intros [|callee rest].
  - reflexivity.
  - apply collect_call_args_tail.
Qed.

(** X2.  [CallAndPauseOnStart] without an argument, or with a first
    argument that is not a function, fails an assertion before anything
    else happens: no pause is requested and nothing is called. *)
Theorem CallAndPauseOnStart_rejects :
  forall (World : Type) (host : Host World NodeInspectorClient.t)
         (agent : Agent.t) (w : World),
    CallAndPauseOnStart host agent [] w
    = ([], Crash (AssertionFailed "args.Length() >= 1"))
    /\ forall (v : Value) (rest : list Value),
         IsFunction v = false ->
         CallAndPauseOnStart host agent (v :: rest) w
         = ([], Crash (AssertionFailed "args[0]->IsFunction()")).
Proof.
  intros World host agent w. split; [reflexivity|].
  intros v rest Hf. unfold CallAndPauseOnStart.
  cbn [List.length]. unfold assert.
  replace (1 <=? Z.of_nat (S (List.length rest))) with true
    by (symmetry; apply Z.leb_le; lia).
  rewrite bind_ret, Hf. reflexivity.
Qed.

Lemma CallAndPauseOnStart_rejects_witness :
  CallAndPauseOnStart scripted_host started_agent [] returning_world
  = ([], Crash (AssertionFailed "args.Length() >= 1"))
  /\ CallAndPauseOnStart scripted_host started_agent
       [VString [102]; VFunction 1] returning_world
     = ([], Crash (AssertionFailed "args[0]->IsFunction()")).
Proof.
  split.
  - apply (CallAndPauseOnStart_rejects ScriptedWorld scripted_host
             started_agent returning_world).
  - apply (CallAndPauseOnStart_rejects ScriptedWorld scripted_host
             started_agent returning_world).
    reflexivity.
Defined.

(** *** The pause loop and the calls made during it *)

Lemma runMessageLoopOnPause_guard {World : Type}
  (host : Host World NodeInspectorClient.t) fuel gid c (w : World) :
  NodeInspectorClient.running_nested_loop_ c = true ->
  NodeInspectorClient.channel_ c <> None ->
  NodeInspectorClient.runMessageLoopOnPause host fuel gid c w
  = ([], Ret (c, w)).
Proof.
  intros Hrun Hch. unfold NodeInspectorClient.runMessageLoopOnPause.
  destruct (NodeInspectorClient.channel_ c); [|congruence].
  cbn [IsEmpty negb]. unfold assert. rewrite bind_ret, Hrun. reflexivity.
Qed.


Section LoopInvariant.
Context {World : Type} (host : Host World NodeInspectorClient.t).

Import NodeInspectorClient.

Hypothesis wait_keeps : forall d c w,
  loop_invariant c = true ->
  loop_invariant (snd (fst (WaitForFrontendMessageWhilePaused host d c w)))
  = true.

Hypothesis pump_keeps : forall p e c w,
  loop_invariant c = true ->
  loop_invariant (snd (fst (PumpMessageLoop host p e c w))) = true.

Lemma pump_all_keeps fuel : forall c w t c' w',
  loop_invariant c = true ->
  pump_all host fuel c w = (t, Ret (c', w')) ->
  loop_invariant c' = true.
Proof.
  induction fuel as [|fuel IH]; intros c w t c' w' Hinv Hrun.
  - discriminate.
  - cbn [pump_all] in Hrun. rewrite bind_run in Hrun. unfold pump_once in Hrun.
    pose proof (pump_keeps (platform_ c) (env_ c) c w Hinv) as Hk.
    destruct (PumpMessageLoop host (platform_ c) (env_ c) c w)
      as [[more c1] w1]. cbn in Hk.
    destruct more.
    + destruct (pump_all host fuel c1 w1) as [t1 [[c2 w2]|f|]] eqn:Hin;
        cbn in Hrun; try discriminate.
      inversion Hrun; subst. eapply IH; eassumption.
    + cbn in Hrun. inversion Hrun; subst. exact Hk.
Qed.

Lemma pause_loop_safe fuel : forall c w f,
  loop_invariant c = true ->
  outcome_of (pause_loop host fuel c w) <> Crash f.
Proof.
  induction fuel as [|fuel IH]; intros c w f Hinv.
  - cbn. discriminate.
  - cbn [pause_loop]. rewrite bind_emit.
    destruct (terminated_ c) eqn:Hterm; [cbn; discriminate|].
    destruct (channel_ c) as [ch|] eqn:Hch.
    + rewrite bind_run. unfold ChannelImpl.waitForFrontendMessage.
      pose proof (wait_keeps (ChannelImpl.delegate_ ch) c w Hinv) as Hk.
      destruct (WaitForFrontendMessageWhilePaused host
                  (ChannelImpl.delegate_ ch) c w) as [[more c1] w1].
      cbn in Hk. destruct more; [|cbn; discriminate].
      rewrite bind_run.
      pose proof (pump_all_no_crash host fuel c1 w1) as Hnc.
      pose proof (pump_all_keeps fuel c1 w1) as Hpk.
      unfold outcome_of in *.
      destruct (pump_all host fuel c1 w1) as [tp [[c2 w2]|f'|]]; cbn.
      * apply IH. eapply Hpk; [exact Hk | reflexivity].
      * exfalso. apply (Hnc f'). reflexivity.
      * discriminate.
    + exfalso. unfold loop_invariant in Hinv.
      rewrite Hch, Hterm in Hinv. cbn in Hinv.
      rewrite andb_false_r in Hinv. discriminate.
Qed.
End LoopInvariant.

(** X3.  When the work that runs inside the two blocking calls keeps the
    running flag set and never leaves a released channel without a set
    [terminated_], a call of [runMessageLoopOnPause] with a channel
    attached never crashes: the loop does not wait on a released
    channel. *)
Theorem runMessageLoopOnPause_never_waits_on_released_channel :
  forall (World : Type) (host : Host World NodeInspectorClient.t),
    (forall d c w,
       loop_invariant c = true ->
       loop_invariant
         (snd (fst (WaitForFrontendMessageWhilePaused host d c w))) = true) ->
    (forall p e c w,
       loop_invariant c = true ->
       loop_invariant (snd (fst (PumpMessageLoop host p e c w))) = true) ->
    forall (fuel : nat) (gid : Z) (c : NodeInspectorClient.t) (w : World)
           (f : fault),
      NodeInspectorClient.channel_ c <> None ->
      outcome_of (NodeInspectorClient.runMessageLoopOnPause host fuel gid c w)
      <> Crash f.
Proof.
  intros World host Hwait Hpump fuel gid c w f Hch.
  destruct (NodeInspectorClient.running_nested_loop_ c) eqn:Hrun.
  - rewrite runMessageLoopOnPause_guard by assumption.
    cbn. discriminate.
  - rewrite (runMessageLoopOnPause_enters host fuel gid c w Hch Hrun).
    cbv zeta.
    pose proof (pause_loop_safe host Hwait Hpump fuel
                  (NodeInspectorClient.set_running_nested_loop true
                     (NodeInspectorClient.set_terminated false c)) w)
      as Hsafe.
    unfold outcome_of in *.
    destruct (NodeInspectorClient.pause_loop host fuel _ w)
      as [t [[c1 w1]|f'|]]; cbn in *; try discriminate.
    intros _. apply (Hsafe f').
    + unfold loop_invariant. cbn.
      destruct (NodeInspectorClient.channel_ c); [reflexivity|congruence].
    + reflexivity.
Qed.

Lemma run_callback_keeps (cb : Callback) (c : NodeInspectorClient.t)
  (w : ScriptedWorld) :
  loop_invariant c = true -> loop_invariant (run_callback cb c w) = true.
Proof.
  unfold loop_invariant.
  destruct c as [e p [|] [|] [ch|]], cb; cbn; intros H;
    solve [reflexivity | discriminate H].
Qed.

Lemma runMessageLoopOnPause_never_waits_on_released_channel_witness :
  outcome_of (NodeInspectorClient.runMessageLoopOnPause scripted_host 5 1
                connected_client leaving_world)
  <> Crash (NullDereference "channel_").
Proof.
  apply (runMessageLoopOnPause_never_waits_on_released_channel
           ScriptedWorld scripted_host).
  - intros d c w Hinv. cbn.
    destruct (frontend w) as [|[answer cb] rest]; cbn;
      [exact Hinv | apply run_callback_keeps; exact Hinv].
  - intros p e c w Hinv. cbn.
    destruct (tasks w) as [|[answer cb] rest]; cbn;
      [exact Hinv | apply run_callback_keeps; exact Hinv].
  - cbn. discriminate.
Defined.

(** X4.  Every member of the client that can be called while the loop
    runs (quit, connect, disconnect, dispatch, a further pause, context
    teardown, an exception report) keeps that condition when it returns:
    the running flag stays set, and the channel is released only together
    with a set [terminated_]. *)
Theorem client_calls_keep_loop_invariant :
  forall (World : Type) (host : Host World NodeInspectorClient.t)
         (fuel : nat) (call : ClientCall)
         (c c' : NodeInspectorClient.t) (w w' : World) (t : list Event),
    loop_invariant c = true ->
    client_call host fuel call c w = (t, Ret (c', w')) ->
    loop_invariant c' = true.
Proof.
  intros World host fuel call c c' w w' t Hinv Hrun.
  unfold loop_invariant in *.
  apply andb_true_iff in Hinv. destruct Hinv as [Hrunning Hinv].
  destruct call as [|d| |m|gid| |error message]; cbn [client_call] in Hrun.
  - inversion Hrun; subst. cbn. rewrite Hrunning, orb_true_r. reflexivity.
  - unfold NodeInspectorClient.connectFrontend in Hrun.
    destruct (NodeInspectorClient.channel_ c); [discriminate|].
    inversion Hrun; subst. cbn. rewrite Hrunning. reflexivity.
  - rewrite disconnectFrontend_run in Hrun. inversion Hrun; subst.
    cbn. rewrite Hrunning. reflexivity.
  - unfold NodeInspectorClient.dispatchMessageFromFrontend in Hrun.
    destruct (NodeInspectorClient.channel_ c) eqn:Hch; [|discriminate].
    inversion Hrun; subst. rewrite Hrunning, Hch. reflexivity.
  - destruct (NodeInspectorClient.channel_ c) eqn:Hch.
    + rewrite runMessageLoopOnPause_guard in Hrun by congruence.
      inversion Hrun; subst. rewrite Hrunning, Hch. reflexivity.
    + unfold NodeInspectorClient.runMessageLoopOnPause in Hrun.
      rewrite Hch in Hrun. discriminate.
  - inversion Hrun; subst. rewrite Hrunning. exact Hinv.
  - inversion Hrun; subst. rewrite Hrunning. exact Hinv.
Qed.

Lemma client_calls_keep_loop_invariant_witness :
  loop_invariant disconnected_while_paused = true.
Proof.
  apply (client_calls_keep_loop_invariant ScriptedWorld scripted_host 3
           DoDisconnect paused_client disconnected_while_paused
           quiet_world quiet_world
           [EvQuitMessageLoopOnPause; EvSessionRelease sample_delegate]).
  - reflexivity.
  - reflexivity.
Defined.

(** X5.  When the first wait answers false, the call made one check and
    one wait and nothing else (the scheduler is not drained), and it
    returns the client that the wait left, with both flags false. *)
Theorem runMessageLoopOnPause_frontend_gone :
  forall (World : Type) (host : Host World NodeInspectorClient.t)
         (fuel : nat) (gid : Z) (c c1 : NodeInspectorClient.t)
         (ch : ChannelImpl.t) (w w1 : World),
    NodeInspectorClient.channel_ c = Some ch ->
    NodeInspectorClient.running_nested_loop_ c = false ->
    WaitForFrontendMessageWhilePaused host (ChannelImpl.delegate_ ch)
      (NodeInspectorClient.set_running_nested_loop true
         (NodeInspectorClient.set_terminated false c)) w
    = (false, c1, w1) ->
    NodeInspectorClient.runMessageLoopOnPause host (S fuel) gid c w
    = ([EvCheckTerminated false;
        EvWaitForFrontendMessage (ChannelImpl.delegate_ ch) false],
       Ret (NodeInspectorClient.set_running_nested_loop false
              (NodeInspectorClient.set_terminated false c1), w1)).
Proof.
  intros World host fuel gid c c1 ch w w1 Hch Hrun Hwait.
  rewrite runMessageLoopOnPause_enters by congruence. cbv zeta.
  rewrite (pause_loop_frontend_gone host fuel _ ch w c1 w1);
    [reflexivity | reflexivity | exact Hch | exact Hwait].
Qed.

Lemma runMessageLoopOnPause_frontend_gone_witness :
  NodeInspectorClient.runMessageLoopOnPause scripted_host 1 1
    connected_client quiet_world
  = ([EvCheckTerminated false;
      EvWaitForFrontendMessage sample_delegate false],
     Ret (connected_client, quiet_world)).
Proof.
  apply (runMessageLoopOnPause_frontend_gone ScriptedWorld scripted_host
           0 1 connected_client paused_client
           {| ChannelImpl.delegate_ := sample_delegate |}
           quiet_world quiet_world).
  - reflexivity.
  - reflexivity.
  - reflexivity.
Defined.

(** X6.  A quit that arrives while no loop runs does not carry over: the
    next pause resets the flag on entry and runs exactly as it would have
    without the quit. *)
Theorem quit_before_pause_is_dropped :
  forall (World : Type) (host : Host World NodeInspectorClient.t)
         (fuel : nat) (gid : Z) (c : NodeInspectorClient.t) (w : World),
    NodeInspectorClient.running_nested_loop_ c = false ->
    bind (NodeInspectorClient.quitMessageLoopOnPause c)
         (NodeInspectorClient.runMessageLoopOnPause host fuel gid) w
    = (EvQuitMessageLoopOnPause
         :: trace_of
              (NodeInspectorClient.runMessageLoopOnPause host fuel gid c w),
       outcome_of
         (NodeInspectorClient.runMessageLoopOnPause host fuel gid c w)).
Proof.
  intros World host fuel gid c w Hrun.
  unfold NodeInspectorClient.quitMessageLoopOnPause.
  rewrite bind_run. rewrite bind_emit. cbn [fst snd ret app].
  unfold NodeInspectorClient.runMessageLoopOnPause.
  destruct c as [e p tm rn ch]. cbn in Hrun. subst rn.
  cbn [NodeInspectorClient.channel_ NodeInspectorClient.set_terminated
       NodeInspectorClient.running_nested_loop_
       NodeInspectorClient.set_running_nested_loop
       NodeInspectorClient.env_ NodeInspectorClient.platform_
       NodeInspectorClient.terminated_].
  reflexivity.
Qed.

Lemma quit_before_pause_is_dropped_witness :
  bind (NodeInspectorClient.quitMessageLoopOnPause connected_client)
       (NodeInspectorClient.runMessageLoopOnPause scripted_host 5 1)
       resuming_world
  = (EvQuitMessageLoopOnPause
       :: trace_of
            (NodeInspectorClient.runMessageLoopOnPause scripted_host 5 1
               connected_client resuming_world),
     outcome_of
       (NodeInspectorClient.runMessageLoopOnPause scripted_host 5 1
          connected_client resuming_world)).
Proof.
  apply (quit_before_pause_is_dropped ScriptedWorld scripted_host 5 1
           connected_client resuming_world).
  reflexivity.
Defined.

(** *** Connecting through the agent *)

Section AgentFrontend.
Context {World : Type}.

Import Agent.

Lemma Connect_run d a c (w : World) :
  client_ a = Some c ->
  NodeInspectorClient.channel_ c = None ->
  Connect d a w
  = ([EvInspectorConnect 1 d StringView_default],
     Ret (set_client
            (Some (NodeInspectorClient.set_channel
                     (Some {| ChannelImpl.delegate_ := d |}) c))
            (set_enabled true a), w)).
Proof.
  intros Hcl Hch. unfold Connect. cbn [client_ set_enabled].
  rewrite Hcl, bind_run, (connectFrontend_run d c w Hch). reflexivity.
Qed.

Lemma Connect_attached d a c (w : World) :
  client_ a = Some c ->
  NodeInspectorClient.channel_ c <> None ->
  Connect d a w = ([], Crash (AssertionFailed "channel_ == nullptr")).
Proof.
  intros Hcl Hch. unfold Connect. cbn [client_ set_enabled].
  rewrite Hcl, bind_run. unfold NodeInspectorClient.connectFrontend.
  destruct (NodeInspectorClient.channel_ c); [reflexivity | congruence].
Qed.

Lemma Disconnect_run a c (w : World) :
  client_ a = Some c ->
  Disconnect a w
  = (EvQuitMessageLoopOnPause :: released c,
     Ret (set_client
            (Some (NodeInspectorClient.set_channel None
                     (NodeInspectorClient.set_terminated true c))) a, w)).
Proof.
  intros Hcl. unfold Disconnect. rewrite Hcl. cbn [IsEmpty negb].
  unfold assert. rewrite bind_ret, bind_run, disconnectFrontend_run.
  cbn. rewrite app_nil_r. reflexivity.
Qed.
End AgentFrontend.

(** X7.  A second [Connect] with no [Disconnect] in between fails the
    assertion of [connectFrontend]; only the first connect reached the
    inspector engine. *)
Theorem Connect_twice_fails :
  forall (World : Type) (a : Agent.t) (c : NodeInspectorClient.t)
         (d1 d2 : InspectorSessionDelegate) (w : World),
    Agent.client_ a = Some c ->
    NodeInspectorClient.channel_ c = None ->
    bind (Agent.Connect d1 a) (Agent.Connect d2) w
    = ([EvInspectorConnect 1 d1 StringView_default],
       Crash (AssertionFailed "channel_ == nullptr")).
Proof.
  intros World a c d1 d2 w Hcl Hch.
  rewrite bind_run, (Connect_run d1 a c w Hcl Hch).
  erewrite Connect_attached; [reflexivity | reflexivity | cbn; discriminate].
Qed.

Lemma Connect_twice_fails_witness :
  bind (Agent.Connect sample_delegate started_agent)
       (Agent.Connect (delegate_handle 8)) quiet_world
  = ([EvInspectorConnect 1 sample_delegate StringView_default],
     Crash (AssertionFailed "channel_ == nullptr")).
Proof.
  apply (Connect_twice_fails ScriptedWorld started_agent new_client
           sample_delegate (delegate_handle 8) quiet_world).
  - reflexivity.
  - reflexivity.
Defined.

(** X8.  [delegate] gives back the delegate of the last [Connect], and
    nothing once [Disconnect] has run. *)
Theorem delegate_follows_connect :
  forall (World : Type) (a : Agent.t) (c : NodeInspectorClient.t)
         (d : InspectorSessionDelegate) (w : World),
    Agent.client_ a = Some c ->
    NodeInspectorClient.channel_ c = None ->
    bind (Agent.Connect d a) Agent.delegate w
    = ([EvInspectorConnect 1 d StringView_default], Ret (Some d, w))
    /\ bind (Agent.Connect d a)
            (fun a1 => bind (Agent.Disconnect a1) Agent.delegate) w
       = ([EvInspectorConnect 1 d StringView_default;
           EvQuitMessageLoopOnPause; EvSessionRelease d],
          Ret (None, w)).
Proof.
  intros World a c d w Hcl Hch. split.
  - rewrite bind_run, (Connect_run d a c w Hcl Hch). reflexivity.
  - rewrite bind_run, (Connect_run d a c w Hcl Hch). cbn [fst snd].
    rewrite bind_run. erewrite Disconnect_run by reflexivity. reflexivity.
Qed.

Lemma delegate_follows_connect_witness :
  bind (Agent.Connect sample_delegate started_agent) Agent.delegate
       quiet_world
  = ([EvInspectorConnect 1 sample_delegate StringView_default],
     Ret (Some sample_delegate, quiet_world))
  /\ bind (Agent.Connect sample_delegate started_agent)
          (fun a1 => bind (Agent.Disconnect a1) Agent.delegate) quiet_world
     = ([EvInspectorConnect 1 sample_delegate StringView_default;
         EvQuitMessageLoopOnPause; EvSessionRelease sample_delegate],
        Ret (None, quiet_world)).
Proof.
  apply (delegate_follows_connect ScriptedWorld started_agent new_client
           sample_delegate quiet_world).
  - reflexivity.
  - reflexivity.
Defined.

(** X9.  [Disconnect] may be repeated: a second one releases nothing and
    leaves the agent as the first one left it. *)
Theorem Disconnect_idempotent :
  forall (World : Type) (a : Agent.t) (c : NodeInspectorClient.t)
         (w : World),
    Agent.client_ a = Some c ->
    exists a1,
      Agent.Disconnect a w
      = (EvQuitMessageLoopOnPause :: released c, Ret (a1, w))
      /\ Agent.Disconnect a1 w = ([EvQuitMessageLoopOnPause], Ret (a1, w))
      /\ Agent.io_ a1 = Agent.io_ a.
Proof.
  intros World a c w Hcl. eexists. split.
  - apply (Disconnect_run a c w Hcl).
  - split; [|reflexivity].
    erewrite Disconnect_run by reflexivity. reflexivity.
Qed.

Lemma Disconnect_idempotent_witness :
  exists a1,
    Agent.Disconnect
      (Agent.set_client (Some connected_client) started_agent) quiet_world
    = (EvQuitMessageLoopOnPause :: released connected_client,
       Ret (a1, quiet_world))
    /\ Agent.Disconnect a1 quiet_world
       = ([EvQuitMessageLoopOnPause], Ret (a1, quiet_world))
    /\ Agent.io_ a1
       = Agent.io_ (Agent.set_client (Some connected_client) started_agent).
Proof.
  apply (Disconnect_idempotent ScriptedWorld
           (Agent.set_client (Some connected_client) started_agent)
           connected_client quiet_world).
  reflexivity.
Defined.

(** X10.  [Dispatch] hands its message to the session of the attached
    channel and changes nothing; on an agent whose client has no channel
    it fails the assertion of [dispatchMessageFromFrontend]. *)
Theorem Dispatch_needs_channel :
  forall (World : Type) (a : Agent.t) (c : NodeInspectorClient.t)
         (message : StringView) (w : World),
    Agent.client_ a = Some c ->
    (NodeInspectorClient.channel_ c <> None ->
     Agent.Dispatch message a w
     = ([EvDispatchProtocolMessage message], Ret (tt, w)))
    /\ (NodeInspectorClient.channel_ c = None ->
        Agent.Dispatch message a w
        = ([], Crash (AssertionFailed "channel_ != nullptr"))).
Proof.
  intros World a c message w Hcl.
  unfold Agent.Dispatch, NodeInspectorClient.dispatchMessageFromFrontend.
  rewrite Hcl. split; intros Hch.
  - destruct (NodeInspectorClient.channel_ c); [reflexivity | congruence].
  - rewrite Hch. reflexivity.
Qed.

Lemma Dispatch_needs_channel_witness :
  Agent.Dispatch (StringView8 [123; 125])
    (Agent.set_client (Some connected_client) started_agent) quiet_world
  = ([EvDispatchProtocolMessage (StringView8 [123; 125])],
     Ret (tt, quiet_world))
  /\ Agent.Dispatch (StringView8 [123; 125]) started_agent quiet_world
     = ([], Crash (AssertionFailed "channel_ != nullptr")).
Proof.
  split.
  - apply (Dispatch_needs_channel ScriptedWorld
             (Agent.set_client (Some connected_client) started_agent)
             connected_client (StringView8 [123; 125]) quiet_world).
    + reflexivity.
    + cbn. discriminate.
  - apply (Dispatch_needs_channel ScriptedWorld started_agent new_client
             (StringView8 [123; 125]) quiet_world).
    + reflexivity.
    + reflexivity.
Defined.

(** *** The transport *)

(** X11.  Without a controller [IsConnected] answers false, whatever
    the transport would say: the right side of [&&] is not evaluated.
    This holds also right after a [Connect] made in the process, which
    attaches a channel and builds no controller. *)
Theorem IsConnected_needs_transport :
  forall (World : Type) (host : Host World NodeInspectorClient.t)
         (a : Agent.t) (w : World),
    Agent.io_ a = None ->
    Agent.IsConnected host a w = ([], Ret (false, w))
    /\ forall c d,
         Agent.client_ a = Some c ->
         NodeInspectorClient.channel_ c = None ->
         bind (Agent.Connect d a) (Agent.IsConnected host) w
         = ([EvInspectorConnect 1 d StringView_default], Ret (false, w)).
Proof.
  intros World host a w Hio. split.
  - unfold Agent.IsConnected. rewrite Hio. reflexivity.
  - intros c d Hcl Hch.
    rewrite bind_run, (Connect_run d a c w Hcl Hch).
    unfold Agent.IsConnected. cbn. rewrite Hio. reflexivity.
Qed.

Lemma IsConnected_needs_transport_witness :
  Agent.IsConnected scripted_host stopped_agent quiet_world
  = ([], Ret (false, quiet_world))
  /\ bind (Agent.Connect sample_delegate stopped_agent)
          (Agent.IsConnected scripted_host) quiet_world
     = ([EvInspectorConnect 1 sample_delegate StringView_default],
        Ret (false, quiet_world)).
Proof.
  split.
  - apply (IsConnected_needs_transport ScriptedWorld scripted_host
             stopped_agent quiet_world).
    reflexivity.
  - apply (proj2 (IsConnected_needs_transport ScriptedWorld scripted_host
                    stopped_agent quiet_world eq_refl)
             new_client sample_delegate).
    + reflexivity.
    + reflexivity.
Defined.

(** X12.  [WaitForDisconnect] tears the context down and, with no
    controller, returns without waiting: the transport is not called and
    the world is as before.  Without a client it fails its assertion and
    tears nothing down. *)
Theorem WaitForDisconnect_without_transport :
  forall (World : Type) (host : Host World NodeInspectorClient.t)
         (a : Agent.t) (w : World),
    (Agent.client_ a <> None ->
     Agent.io_ a = None ->
     Agent.WaitForDisconnect host a w = ([EvContextDestroyed], Ret (tt, w)))
    /\ (Agent.client_ a = None ->
        Agent.WaitForDisconnect host a w
        = ([], Crash (AssertionFailed "client_ != nullptr"))).
Proof.
  intros World host a w. unfold Agent.WaitForDisconnect. split.
  - intros Hcl Hio. destruct (Agent.client_ a); [|congruence].
    rewrite Hio. reflexivity.
  - intros Hcl. rewrite Hcl. reflexivity.
Qed.

Lemma WaitForDisconnect_without_transport_witness :
  Agent.WaitForDisconnect scripted_host (Agent.set_io None started_agent)
    quiet_world
  = ([EvContextDestroyed], Ret (tt, quiet_world))
  /\ Agent.WaitForDisconnect scripted_host unbound_agent quiet_world
     = ([], Crash (AssertionFailed "client_ != nullptr")).
Proof.
  split.
  - apply (WaitForDisconnect_without_transport ScriptedWorld scripted_host
             (Agent.set_io None started_agent) quiet_world).
    + cbn. discriminate.
    + reflexivity.
  - apply (WaitForDisconnect_without_transport ScriptedWorld scripted_host
             unbound_agent quiet_world).
    reflexivity.
Defined.

(** X13.  [Stop] never fails; it stops the controller when there is one,
    and only then; it leaves the client, and with it an attached channel,
    in place; and a second [Stop] does nothing. *)
Theorem Stop_idempotent :
  forall (World : Type) (a : Agent.t) (w : World),
    exists t a1,
      Agent.Stop a w = (t, Ret (a1, w))
      /\ t = (if IsEmpty (Agent.io_ a) then [] else [EvIoStop])
      /\ Agent.io_ a1 = None
      /\ Agent.client_ a1 = Agent.client_ a
      /\ Agent.enabled_ a1 = Agent.enabled_ a
      /\ Agent.Stop a1 w = ([], Ret (a1, w)).
Proof.
  intros World a w. unfold Agent.Stop.
  destruct a as [pe cl pl en [io|] pa]; cbn;
    eexists _, _; repeat split.
Qed.

Section Rebind.
Context {World : Type} (host : Host World NodeInspectorClient.t).

Import Agent.

Lemma StartIoThread_leaves_controller wait_for_connect a (w : World)
  t r a' w' :
  StartIoThread host wait_for_connect a w = (t, Ret ((r, a'), w')) ->
  io_ a' <> None.
Proof.
  destruct (io_ a) as [io|] eqn:Hio.
  - rewrite StartIoThread_started by congruence.
    intros H. inversion H; subst. congruence.
  - destruct (client_ a) as [c|] eqn:Hcl.
    + rewrite (StartIoThread_first host wait_for_connect a c w Hio Hcl).
      cbv zeta. destruct (fst (InspectorIo_Start host (new_io a) w));
        intros H; inversion H; subst; cbn; discriminate.
    + rewrite (StartIoThread_no_client host wait_for_connect a w Hio Hcl).
      discriminate.
Qed.

Lemma Stop_run a io (w : World) :
  io_ a = Some io ->
  Stop a w = ([EvIoStop], Ret (set_io None a, w)).
Proof. intros H. unfold Stop. rewrite H. reflexivity. Qed.
End Rebind.

(** X14.  After a [Stop] the next [StartIoThread] builds a controller
    and tries the bind again: with a client present, stop and start in a
    row make exactly one new controller and one bind, and the start
    returns what the bind answered. *)
Theorem Stop_then_StartIoThread_binds_again :
  forall (World : Type) (host : Host World NodeInspectorClient.t)
         (wait_for_connect : bool) (a : Agent.t) (w : World),
    Agent.client_ a <> None ->
    Agent.io_ a <> None ->
    let r := bind (Agent.Stop a) (Agent.StartIoThread host wait_for_connect)
               w in
    count_events is_bind (trace_of r) = 1%nat
    /\ count_events is_io_new (trace_of r) = 1%nat
    /\ hd_error (trace_of r) = Some EvIoStop
    /\ exists a' w',
         outcome_of r
         = Ret ((fst (InspectorIo_Start host (Agent.new_io a) w), a'), w').
Proof.
  intros World host wait_for_connect a w Hcl Hio r. subst r.
  destruct (Agent.io_ a) as [io|] eqn:Eio; [clear Hio | congruence].
  destruct (Agent.client_ a) as [c|] eqn:Ecl; [clear Hcl | congruence].
  rewrite bind_run, (Stop_run a io w Eio).
  rewrite (StartIoThread_first host wait_for_connect (Agent.set_io None a)
             c w eq_refl Ecl).
  cbv zeta.
  replace (Agent.new_io (Agent.set_io None a)) with (Agent.new_io a)
    by reflexivity.
  destruct (InspectorIo_Start host (Agent.new_io a) w) as [ok w1].
  destruct ok; cbn [fst snd].
  - cbn. repeat split. eexists _, _. reflexivity.
  - unfold released, count_events, trace_of, outcome_of.
    destruct (NodeInspectorClient.channel_ c); cbn;
      repeat split; eexists _, _; reflexivity.
Qed.

Lemma Stop_then_StartIoThread_binds_again_witness :
  let r := bind (Agent.Stop started_agent)
                (Agent.StartIoThread scripted_host false) binding_world in
  count_events is_bind (trace_of r) = 1%nat
  /\ count_events is_io_new (trace_of r) = 1%nat
  /\ hd_error (trace_of r) = Some EvIoStop
  /\ exists a' w',
       outcome_of r
       = Ret ((fst (InspectorIo_Start scripted_host
                      (Agent.new_io started_agent) binding_world), a'), w').
Proof.
  apply (Stop_then_StartIoThread_binds_again ScriptedWorld scripted_host
           false started_agent binding_world).
  - cbn. discriminate.
  - cbn. discriminate.
Defined.

(** X15.  A failed bind is not tried again.  The agent it leaves answers
    true to every further [StartIoThread], with no bind and no client;
    and once that agent is stopped, [StartIoThread] fails the assertion
    on the client.  Only [Start] makes a client again. *)
Theorem bind_failure_is_final :
  forall (World : Type) (host : Host World NodeInspectorClient.t)
         (first later : bool) (a a' : Agent.t) (w w' : World)
         (t : list Event),
    Agent.StartIoThread host first a w = (t, Ret ((false, a'), w')) ->
    Agent.IsStarted a' = false
    /\ forall w2 : World,
         Agent.StartIoThread host later a' w2 = ([], Ret ((true, a'), w2))
         /\ bind (Agent.Stop a') (Agent.StartIoThread host later) w2
            = ([EvIoStop], Crash (AssertionFailed "client_ != nullptr")).
Proof.
  intros World host first later a a' w w' t Hrun.
  destruct (Agent.io_ a) as [io|] eqn:Hio.
  - rewrite StartIoThread_started in Hrun by congruence. discriminate.
  - destruct (Agent.client_ a) as [c|] eqn:Hcl.
    + rewrite (StartIoThread_first host first a c w Hio Hcl) in Hrun.
      cbv zeta in Hrun.
      destruct (fst (InspectorIo_Start host (Agent.new_io a) w));
        inversion Hrun; subst.
      split; [reflexivity|]. intros w2. split; reflexivity.
    + rewrite (StartIoThread_no_client host first a w Hio Hcl) in Hrun.
      discriminate.
Qed.

Lemma bind_failure_is_final_witness :
  Agent.IsStarted unbound_agent = false
  /\ forall w2 : ScriptedWorld,
       Agent.StartIoThread scripted_host false unbound_agent w2
       = ([], Ret ((true, unbound_agent), w2))
       /\ bind (Agent.Stop unbound_agent)
               (Agent.StartIoThread scripted_host false) w2
          = ([EvIoStop], Crash (AssertionFailed "client_ != nullptr")).
Proof.
  apply (bind_failure_is_final ScriptedWorld scripted_host true false
           (Agent.set_io None started_agent) unbound_agent
           quiet_world quiet_world
           [EvIoNew sample_io; EvIoStart false; EvInspectorRelease]).
  reflexivity.
Defined.

(** *** Starting the agent *)

Section Starting.
Context {World : Type} (host : Host World NodeInspectorClient.t).

Import Agent.

Lemma release_client_run a (w : World) :
  release_client a w = (client_release_events (client_ a), Ret (tt, w)).
Proof.
  unfold release_client, client_release_events,
    NodeInspectorClient.destroy, released.
  destruct (client_ a) as [c|]; [|reflexivity].
  destruct (NodeInspectorClient.channel_ c); reflexivity.
Qed.

(** [Start] up to its last line: the events before the controller is
    asked for, and the assertion on [uv_async_init]. *)
Lemma Start_run env platform path a (w : World) :
  Start host env platform path a w
  = let before :=
      [EvSetData 0; EvInstallGlobal "callAndPauseOnStart";
       EvInspectorCreate env]
      ++ client_release_events (client_ a)
      ++ [EvContextCreated CONTEXT_GROUP_ID
            (Utf8ToStringView host "CB debugger context");
          EvAsyncInit (fst (uv_async_init host w))] in
    if 0 =? fst (uv_async_init host w) then
      let r := StartIoThread host true (Start_agent env platform path a)
                 (snd (uv_async_init host w)) in
      (before ++ EvUnref :: fst r, snd r)
    else (before, Crash (AssertionFailed "0 == uv_async_init(...)")).
Proof.
  unfold Start, NodeInspectorClient.new, NodeInspectorClient.contextCreated,
    ask, assert.
  unfold bind, emit, ret, crash. rewrite release_client_run.
  cbn [client_ set_parent_env set_path].
  destruct (uv_async_init host w) as [rc w1]. cbn [fst snd].
  destruct (0 =? rc).
  - fold (Start_path path). fold (Start_client env platform).
    fold (Start_agent env platform path a).
    destruct (StartIoThread host true (Start_agent env platform path a) w1)
      as [t o].
    cbn. rewrite <- !app_assoc. reflexivity.
  - cbn. reflexivity.
Qed.
End Starting.

Lemma count_events_app (p : Event -> bool) (t1 t2 : list Event) :
  count_events p (t1 ++ t2) = (count_events p t1 + count_events p t2)%nat.
Proof. unfold count_events. rewrite filter_app, length_app. reflexivity. Qed.

Lemma client_release_no_transport cl :
  count_events is_bind (client_release_events cl) = 0%nat
  /\ count_events is_io_new (client_release_events cl) = 0%nat.
Proof.
  unfold client_release_events, released.
  destruct cl as [c|]; [|split; reflexivity].
  destruct (NodeInspectorClient.channel_ c); split; reflexivity.
Qed.

(** X16.  On an agent without a controller, and when [uv_async_init]
    succeeds, [Start] returns what the one bind it tries answers.  The
    agent it leaves is enabled, holds the controller built from the
    environment, the platform and the path (the empty path for a null
    pointer), and holds a client exactly when the bind succeeded; the
    debugger-entry primitive is installed either way. *)
Theorem Start_returns_bind_answer :
  forall (World : Type) (host : Host World NodeInspectorClient.t)
         (env : Environment) (platform : Platform) (path : option string)
         (a : Agent.t) (w : World),
    Agent.io_ a = None ->
    fst (uv_async_init host w) = 0 ->
    let io := {| io_env := Some env; io_platform := Some platform;
                 io_path := Start_path path;
                 io_wait_for_connect := true |} in
    let answer := InspectorIo_Start host io (snd (uv_async_init host w)) in
    exists t a',
      Agent.Start host env platform path a w
      = (t, Ret ((fst answer, a'), snd answer))
      /\ Agent.IsStarted a' = fst answer
      /\ Agent.io_ a' = Some io
      /\ Agent.enabled_ a' = true
      /\ count_events is_bind t = 1%nat
      /\ In (EvInstallGlobal "callAndPauseOnStart") t.
Proof.
  intros World host env platform path a w Hio Hrc io answer.
  rewrite Start_run. cbv zeta. rewrite Hrc. cbn [Z.eqb].
  rewrite (StartIoThread_first host true (Start_agent env platform path a)
             (Start_client env platform)
             (snd (uv_async_init host w)) Hio eq_refl).
  cbv zeta.
  replace (Agent.new_io (Start_agent env platform path a)) with io
    by reflexivity.
  fold answer. destruct answer as [ok w1]. cbn [fst snd].
  destruct (client_release_no_transport (Agent.client_ a)) as [Hnb _].
  destruct ok; cbn [fst snd]; eexists _, _;
    (split; [reflexivity|]); (split; [reflexivity|]);
    (split; [reflexivity|]); (split; [reflexivity|]); split.
  - rewrite !count_events_app, Hnb. reflexivity.
  - cbn. right. left. reflexivity.
  - rewrite !count_events_app, Hnb. reflexivity.
  - cbn. right. left. reflexivity.
Qed.

Lemma Start_returns_bind_answer_witness :
  exists t a',
    Agent.Start scripted_host sample_env sample_platform None Agent.new
      binding_world
    = (t, Ret ((true, a'), quiet_world))
    /\ Agent.IsStarted a' = true
    /\ Agent.io_ a' = Some sample_io
    /\ Agent.enabled_ a' = true
    /\ count_events is_bind t = 1%nat
    /\ In (EvInstallGlobal "callAndPauseOnStart") t.
Proof.
  apply (Start_returns_bind_answer ScriptedWorld scripted_host sample_env
           sample_platform None Agent.new binding_world).
  - reflexivity.
  - reflexivity.
Defined.

(** X17.  When [uv_async_init] fails, [Start] fails its assertion after
    the client was made and the context registered; no controller is
    built and no bind is tried. *)
Theorem Start_async_init_failure :
  forall (World : Type) (host : Host World NodeInspectorClient.t)
         (env : Environment) (platform : Platform) (path : option string)
         (a : Agent.t) (w : World),
    fst (uv_async_init host w) <> 0 ->
    let r := Agent.Start host env platform path a w in
    outcome_of r = Crash (AssertionFailed "0 == uv_async_init(...)")
    /\ In (EvInspectorCreate env) (trace_of r)
    /\ count_events is_bind (trace_of r) = 0%nat
    /\ count_events is_io_new (trace_of r) = 0%nat.
Proof.
  intros World host env platform path a w Hrc r. subst r.
  rewrite Start_run. cbv zeta.
  destruct (0 =? fst (uv_async_init host w)) eqn:E.
  - apply Z.eqb_eq in E. congruence.
  - unfold outcome_of, trace_of. cbn [fst snd].
    destruct (client_release_no_transport (Agent.client_ a)) as [Hnb Hnn].
    split; [reflexivity|]. split; [cbn; auto|].
    rewrite !count_events_app, Hnb, Hnn. split; reflexivity.
Qed.

Lemma Start_async_init_failure_witness :
  let r := Agent.Start scripted_host sample_env sample_platform None
             Agent.new
             {| frontend := []; tasks := []; binds := [true];
                async_rc := -1; results := [] |} in
  outcome_of r = Crash (AssertionFailed "0 == uv_async_init(...)")
  /\ In (EvInspectorCreate sample_env) (trace_of r)
  /\ count_events is_bind (trace_of r) = 0%nat
  /\ count_events is_io_new (trace_of r) = 0%nat.
Proof.
  apply (Start_async_init_failure ScriptedWorld scripted_host sample_env
           sample_platform None Agent.new
           {| frontend := []; tasks := []; binds := [true];
              async_rc := -1; results := [] |}).
  cbn. discriminate.
Defined.

(** X18.  [Start] on an agent whose controller exists keeps that
    controller and tries no bind; it returns true and puts a new client
    in the place of the old one, whose attached channel, if any, is
    released: afterwards no delegate is connected. *)
Theorem Start_over_running_transport :
  forall (World : Type) (host : Host World NodeInspectorClient.t)
         (env : Environment) (platform : Platform) (path : option string)
         (a : Agent.t) (io : InspectorIo) (w : World),
    Agent.io_ a = Some io ->
    fst (uv_async_init host w) = 0 ->
    let a' := Start_agent env platform path a in
    let w' := snd (uv_async_init host w) in
    Agent.Start host env platform path a w
    = ([EvSetData 0; EvInstallGlobal "callAndPauseOnStart";
        EvInspectorCreate env]
       ++ client_release_events (Agent.client_ a)
       ++ [EvContextCreated CONTEXT_GROUP_ID
             (Utf8ToStringView host "CB debugger context");
           EvAsyncInit 0; EvUnref],
       Ret ((true, a'), w'))
    /\ Agent.io_ a' = Some io
    /\ Agent.delegate a' w' = ([], Ret (None, w'))
    /\ forall c ch,
         Agent.client_ a = Some c ->
         NodeInspectorClient.channel_ c = Some ch ->
         In (EvSessionRelease (ChannelImpl.delegate_ ch))
            (client_release_events (Agent.client_ a)).
Proof.
  intros World host env platform path a io w Hio Hrc a' w'. subst a' w'.
  split.
  - rewrite Start_run. cbv zeta. rewrite Hrc. cbn [Z.eqb].
    rewrite StartIoThread_started by (cbn; congruence).
    cbn [fst snd]. rewrite <- !app_assoc. reflexivity.
  - split; [exact Hio|]. split; [reflexivity|].
    intros c ch Hcl Hch. rewrite Hcl. unfold client_release_events, released.
    rewrite Hch. cbn. left. reflexivity.
Qed.

Lemma Start_over_running_transport_witness :
  Agent.Start scripted_host sample_env sample_platform None
    (Agent.set_client (Some connected_client) started_agent) quiet_world
  = ([EvSetData 0; EvInstallGlobal "callAndPauseOnStart";
      EvInspectorCreate sample_env;
      EvSessionRelease sample_delegate; EvInspectorRelease;
      EvContextCreated CONTEXT_GROUP_ID
        (Utf8ToStringView scripted_host "CB debugger context");
      EvAsyncInit 0; EvUnref],
     Ret ((true, started_agent), quiet_world)).
Proof.
  apply (Start_over_running_transport ScriptedWorld scripted_host sample_env
           sample_platform None
           (Agent.set_client (Some connected_client) started_agent)
           sample_io quiet_world).
  - reflexivity.
  - reflexivity.
Defined.

(** *** Start requests from the other thread *)

Section Requests.
Context {World : Type} (host : Host World NodeInspectorClient.t).

Lemma StartIoThread_binds_at_most_once wait_for_connect a (w : World) :
  (count_events is_bind
     (trace_of (Agent.StartIoThread host wait_for_connect a w)) <= 1)%nat
  /\ (count_events is_io_new
        (trace_of (Agent.StartIoThread host wait_for_connect a w)) <= 1)%nat.
Proof.
  destruct (Agent.io_ a) as [io|] eqn:Hio.
  - rewrite StartIoThread_started by congruence. cbn. lia.
  - destruct (Agent.client_ a) as [c|] eqn:Hcl.
    + rewrite (StartIoThread_first host wait_for_connect a c w Hio Hcl).
      cbv zeta.
      destruct (fst (InspectorIo_Start host (Agent.new_io a) w)).
      * cbn. lia.
      * unfold released. destruct (NodeInspectorClient.channel_ c); cbn; lia.
    + rewrite (StartIoThread_no_client host wait_for_connect a w Hio Hcl).
      cbn. lia.
Qed.

Lemma deliver_is_StartIoThread d a (w : World) :
  deliver host d a w
  = bind (Agent.StartIoThread host false a) (fun r => ret (snd r)) w.
Proof.
  destruct d; cbn [deliver];
    unfold StartIoTask_Run, StartIoThreadAsyncCallback, StartIoInterrupt;
    rewrite !bind_run;
    destruct (Agent.StartIoThread host false a w) as [t [[[r a1] w1]|f|]];
    reflexivity.
Qed.

Lemma deliver_started d a (w : World) :
  Agent.io_ a <> None -> deliver host d a w = ([], Ret (a, w)).
Proof.
  intros Hio. rewrite deliver_is_StartIoThread, bind_run.
  rewrite StartIoThread_started by exact Hio. reflexivity.
Qed.

Lemma deliver_all_started ds : forall a (w : World),
  Agent.io_ a <> None -> deliver_all host ds a w = ([], Ret (a, w)).
Proof.
  induction ds as [|d ds IH]; intros a w Hio.
  - reflexivity.
  - cbn [deliver_all]. rewrite bind_run, (deliver_started d a w Hio).
    rewrite (IH a w Hio). reflexivity.
Qed.
End Requests.

(** X19.  The three callbacks of a start request (the scheduler task, the
    async callback, the interrupt) are interchangeable, and any number
    of them, in any order, does what the first one does alone: the later
    ones find the controller and return.  So a request that is delivered
    several times builds at most one controller and tries at most one
    bind. *)
Theorem deliveries_amount_to_one :
  forall (World : Type) (host : Host World NodeInspectorClient.t)
         (d : Delivery) (ds : list Delivery) (a : Agent.t) (w : World),
    deliver_all host (d :: ds) a w = StartIoTask_Run host a w
    /\ (count_events is_bind (trace_of (deliver_all host (d :: ds) a w))
        <= 1)%nat
    /\ (count_events is_io_new (trace_of (deliver_all host (d :: ds) a w))
        <= 1)%nat.
Proof.
  intros World host d ds a w.
  assert (Hall : deliver_all host (d :: ds) a w = StartIoTask_Run host a w).
  { cbn [deliver_all]. rewrite bind_run.
    change (StartIoTask_Run host a w) with (deliver host ByTask a w).
    rewrite !deliver_is_StartIoThread. rewrite bind_run.
    destruct (Agent.StartIoThread host false a w)
      as [t [[[r a1] w1]|f|]] eqn:Hrun; cbn [fst snd ret]; try reflexivity.
    rewrite app_nil_r.
    rewrite deliver_all_started
      by (eapply StartIoThread_leaves_controller; exact Hrun).
    rewrite app_nil_r. reflexivity. }
  split; [exact Hall|]. rewrite Hall.
  change (StartIoTask_Run host a w) with (deliver host ByTask a w).
  rewrite deliver_is_StartIoThread, bind_run.
  pose proof (StartIoThread_binds_at_most_once host false a w) as Hc.
  unfold trace_of in *.
  destruct (Agent.StartIoThread host false a w) as [t [[[r a1] w1]|f|]];
    cbn [fst snd ret] in *; rewrite ?app_nil_r; exact Hc.
Qed.

(** Three deliveries of one request on the scripted transport. *)
Example deliveries_bind_once :
  deliver_all scripted_host [ByAsync; ByTask; ByInterrupt]
    (Agent.set_io None started_agent) binding_world
  = ([EvIoNew sample_io; EvIoStart true],
     Ret (started_agent, quiet_world)).
Proof. reflexivity. Qed.

(** X20.  [Agent::FatalException] never crashes, on any agent: its
    guard keeps it away from the assertion of [WaitForDisconnect].  It
    reports at most one exception, and when the agent has no controller
    it does not wait: the world is as before. *)
Theorem FatalException_never_crashes :
  forall (World : Type) (host : Host World NodeInspectorClient.t)
         (error : Local Value) (message : Message) (a : Agent.t)
         (w : World),
    exists t w',
      Agent.FatalException host error message a w = (t, Ret (tt, w'))
      /\ count_events is_exception_thrown t
         = (if Agent.IsStarted a then 1 else 0)%nat
      /\ count_events is_wait_for_disconnect t
         = (if Agent.IsStarted a && negb (IsEmpty (Agent.io_ a))
            then 1 else 0)%nat
      /\ (Agent.io_ a = None -> w' = w).
Proof.
  intros World host error message a w.
  unfold Agent.FatalException, Agent.IsStarted, Agent.WaitForDisconnect.
  destruct (Agent.client_ a) as [c|]; cbn [IsEmpty negb].
  - destruct (Agent.io_ a) as [io|]; eexists _, _;
      (split; [reflexivity|]); repeat split. discriminate.
  - eexists _, _. split; [reflexivity|]. repeat split.
Qed.
